(** * flake8-annotations: the Function/Argument model and the checker

    A shallow embedding of [flake8_annotations/models.py] and
    [flake8_annotations/checker.py], followed by the properties of the
    classification engine, of the type-comment alignment and of the
    per-file emission loop.

    Conventions of the embedding.
    - Python [int] is [Z], [str] is [string], [List] is [list],
      [Set[str]] is [gset string], [Optional[T]] is [option T].
    - A Python class becomes a module holding a record [t] and the
      methods of the class; a mutated object is passed and returned.
    - A generator becomes the list of the values it yields, in order.
    - [IndexError] is the [None] of an [option] result. *)

From stdpp Require Import gmap strings list.
From Stdlib Require Import ZArith.

Local Open Scope string_scope.
Local Open Scope Z_scope.
Local Open Scope list_scope.

(** ** enums *)

Module enums.

(** Modelled from the spec: [enums.py] is not under src/. The three
    enumerations have the members the specification lists. The members it
    calls POSONLYARG, ARG and KWONLYARG are spelled POSONLYARGS, ARGS and
    KWONLYARGS, the names [AnnotationType[arg_type.upper()]] looks up for
    the attributes [posonlyargs], [args] and [kwonlyargs]. *)
Inductive AnnotationType : Set :=
  | POSONLYARGS | ARGS | VARARG | KWONLYARGS | KWARG | RETURN.

Inductive FunctionType : Set :=
  | PUBLIC | PROTECTED | PRIVATE | SPECIAL.

Inductive ClassDecoratorType : Set :=
  | CLASSMETHOD | STATICMETHOD.

#[global] Instance AnnotationType_eq_dec : EqDecision AnnotationType.
Proof. solve_decision. Defined.

#[global] Instance FunctionType_eq_dec : EqDecision FunctionType.
Proof. solve_decision. Defined.

#[global] Instance ClassDecoratorType_eq_dec : EqDecision ClassDecoratorType.
Proof. solve_decision. Defined.

End enums.

Import enums.

(** ** The syntax nodes the model is built from

    Only the node shapes and attributes that [models.py] reads. *)

Module ast.

(** Expressions: decorators, annotations and the argument types of a
    parsed function-level type comment. The arguments of a call are never
    read, so [Call] keeps the called expression only. *)
Inductive expr : Set :=
  | Name (id : string)
  | Attribute (value : expr) (attr : string)
  | Call (func : expr)
  | Ellipsis
  | Other.

Record arg : Set := mk_arg {
  arg_arg : string;
  arg_lineno : Z;
  arg_col_offset : Z;
  arg_annotation : option expr;
  arg_type_comment : option string
}.

Record arguments : Set := mk_arguments {
  posonlyargs : list arg;
  args : list arg;
  vararg : option arg;
  kwonlyargs : list arg;
  kwarg : option arg
}.

(** The result of [ast.parse(comment, "<func_type>", "func_type")]. *)
Record FunctionType : Set := mk_FunctionType {
  argtypes : list expr
}.

(** A function definition node. [type_comment] holds the function-level
    type comment already parsed in [func_type] mode; a comment the parser
    rejects raises in the source before any model exists. *)
Record FunctionDef : Set := mk_FunctionDef {
  name : string;
  lineno : Z;
  col_offset : Z;
  decorator_list : list expr;
  fargs : arguments;
  returns : option expr;
  type_comment : option FunctionType
}.

Definition isinstance_Name (e : expr) : bool :=
  match e with Name _ => true | _ => false end.

Definition isinstance_Ellipsis (e : expr) : bool :=
  match e with Ellipsis => true | _ => false end.

End ast.

(** Truth value of an optional string: [None] and the empty string are
    false. *)
Definition truthy_str (s : option string) : bool :=
  match s with
  | Some s => negb (String.eqb s "")
  | None => false
  end.

(** [str.startswith] and [str.endswith]. *)
Definition startswith (s p : string) : bool := String.prefix p s.

Definition endswith (s p : string) : bool :=
  let n := String.length s in
  let k := String.length p in
  if (k <=? n)%nat then String.eqb (String.substring (n - k) k s) p else false.

(** [itertools.zip_longest] with the default fill value [None]. *)
Fixpoint zip_longest {A B : Type} (l : list A) (k : list B)
  : list (option A * option B) :=
  match l with
  | [] => (fun b => (None, Some b)) <$> k
  | a :: l' =>
      match k with
      | [] => (Some a, None) :: zip_longest l' []
      | b :: k' => (Some a, Some b) :: zip_longest l' k'
      end
  end.

(** ** models.Argument *)

Module Argument.

Record t : Set := mk {
  argname : string;
  lineno : Z;
  col_offset : Z;
  annotation_type : AnnotationType;
  has_type_annotation : bool;
  has_3107_annotation : bool;
  has_type_comment : bool
}.

(** [Argument(argname, lineno, col_offset, annotation_type)], the three
    flags at their default [False]. *)
Definition init (argname : string) (lineno col_offset : Z)
    (annotation_type : AnnotationType) : t :=
  mk argname lineno col_offset annotation_type false false false.

Definition set_has_type_annotation (b : bool) (a : t) : t :=
  mk (argname a) (lineno a) (col_offset a) (annotation_type a)
     b (has_3107_annotation a) (has_type_comment a).

Definition set_has_3107_annotation (b : bool) (a : t) : t :=
  mk (argname a) (lineno a) (col_offset a) (annotation_type a)
     (has_type_annotation a) b (has_type_comment a).

Definition set_has_type_comment (b : bool) (a : t) : t :=
  mk (argname a) (lineno a) (col_offset a) (annotation_type a)
     (has_type_annotation a) (has_3107_annotation a) b.

(** [Argument.from_arg_node(node, annotation_type_name)]; the enum member
    looked up by name is passed directly. *)
Definition from_arg_node (node : ast.arg) (annotation_type : AnnotationType) : t :=
  let new_arg :=
    init (ast.arg_arg node) (ast.arg_lineno node) (ast.arg_col_offset node)
         annotation_type in
  let new_arg := set_has_type_annotation false new_arg in
  let new_arg :=
    if ast.arg_annotation node is Some _
    then set_has_3107_annotation true (set_has_type_annotation true new_arg)
    else new_arg in
  let new_arg :=
    if truthy_str (ast.arg_type_comment node)
    then set_has_type_comment true (set_has_type_annotation true new_arg)
    else new_arg in
  new_arg.

#[global] Instance eq_dec : EqDecision t.
Proof. solve_decision. Defined.

End Argument.

(** The relation between the three flags of an argument: it counts as
    annotated exactly when one of the two styles annotates it. *)
Definition flags_agree (arg : Argument.t) : Prop :=
  Argument.has_type_annotation arg
  = Argument.has_3107_annotation arg || Argument.has_type_comment arg.

(** ** models.Function *)

(** Modelled from the spec: [visitors.AST_ARG_TYPES] is not under src/.
    The slots are built in the order positional-only, positional-or-keyword,
    vararg, keyword-only, kwarg; each attribute name of [ast.arguments] is
    represented by the [AnnotationType] member its upper-cased name selects. *)
Definition AST_ARG_TYPES : list AnnotationType :=
  [POSONLYARGS; ARGS; VARARG; KWONLYARGS; KWARG].

(** [node.args.__getattribute__(arg_type)], with the source's
    normalisation to a list: an empty or absent attribute contributes
    nothing, a single node becomes a one-element list. *)
Definition getattribute (a : ast.arguments) (arg_type : AnnotationType)
  : list ast.arg :=
  match arg_type with
  | POSONLYARGS => ast.posonlyargs a
  | ARGS => ast.args a
  | VARARG => option_list (ast.vararg a)
  | KWONLYARGS => ast.kwonlyargs a
  | KWARG => option_list (ast.kwarg a)
  | RETURN => []
  end.

Module Function.

Record t : Set := mk {
  name : string;
  lineno : Z;
  col_offset : Z;
  function_type : FunctionType;
  is_class_method : bool;
  class_decorator_type : option ClassDecoratorType;
  is_return_annotated : bool;
  has_type_comment : bool;
  has_only_none_returns : bool;
  is_nested : bool;
  decorator_list : list ast.expr;
  args : list Argument.t
}.

Definition set_args (l : list Argument.t) (f : t) : t :=
  mk (name f) (lineno f) (col_offset f) (function_type f) (is_class_method f)
     (class_decorator_type f) (is_return_annotated f) (has_type_comment f)
     (has_only_none_returns f) (is_nested f) (decorator_list f) l.

Definition set_is_return_annotated (b : bool) (f : t) : t :=
  mk (name f) (lineno f) (col_offset f) (function_type f) (is_class_method f)
     (class_decorator_type f) b (has_type_comment f)
     (has_only_none_returns f) (is_nested f) (decorator_list f) (args f).

Definition set_has_type_comment (b : bool) (f : t) : t :=
  mk (name f) (lineno f) (col_offset f) (function_type f) (is_class_method f)
     (class_decorator_type f) (is_return_annotated f) b
     (has_only_none_returns f) (is_nested f) (decorator_list f) (args f).

Definition set_has_only_none_returns (b : bool) (f : t) : t :=
  mk (name f) (lineno f) (col_offset f) (function_type f) (is_class_method f)
     (class_decorator_type f) (is_return_annotated f) (has_type_comment f)
     b (is_nested f) (decorator_list f) (args f).

Definition is_fully_annotated (self : t) : bool :=
  forallb Argument.has_type_annotation (args self).

Definition is_dynamically_typed (self : t) : bool :=
  negb (existsb Argument.has_type_annotation (args self)).

Definition get_missed_annotations (self : t) : list Argument.t :=
  filter (fun arg => negb (Argument.has_type_annotation arg) = true) (args self).

Definition get_annotated_arguments (self : t) : list Argument.t :=
  filter (fun arg => Argument.has_type_annotation arg = true) (args self).

(** [_decorator_checker]: a name or the final attribute is looked up in
    the set, a call is checked through its called expression, any other
    shape falls through to [False]. *)
Fixpoint _decorator_checker (decorator : ast.expr) (check_decorators : gset string)
  : bool :=
  match decorator with
  | ast.Name id => bool_decide (id ∈ check_decorators)
  | ast.Attribute _ attr => bool_decide (attr ∈ check_decorators)
  | ast.Call func => _decorator_checker func check_decorators
  | _ => false
  end.

(** [has_decorator]: the loop returns in its first iteration, so only the
    first decorator is inspected; the [else] branch serves the empty list. *)
Definition has_decorator (self : t) (check_decorators : gset string) : bool :=
  match decorator_list self with
  | decorator :: _ => _decorator_checker decorator check_decorators
  | [] => false
  end.

Definition get_function_type (function_name : string) : FunctionType :=
  if startswith function_name "__" && endswith function_name "__" then SPECIAL
  else if startswith function_name "__" then PRIVATE
  else if startswith function_name "_" then PROTECTED
  else PUBLIC.

Definition get_class_decorator_type (function_node : ast.FunctionDef)
  : option ClassDecoratorType :=
  let decorators :=
    omap (fun decorator =>
            match decorator with ast.Name id => Some id | _ => None end)
         (ast.decorator_list function_node) in
  if bool_decide ("classmethod" ∈ decorators) then Some CLASSMETHOD
  else if bool_decide ("staticmethod" ∈ decorators) then Some STATICMETHOD
  else None.

Definition _maybe_inject_class_argument (hint_tree : ast.FunctionType)
    (func_obj : t) : ast.FunctionType :=
  if negb (is_class_method func_obj) then hint_tree
  else if bool_decide (class_decorator_type func_obj ≠ Some STATICMETHOD) then
    if Z.of_nat (length (ast.argtypes hint_tree))
       <? Z.of_nat (length (args func_obj)) - 1
    then ast.mk_FunctionType (ast.Ellipsis :: ast.argtypes hint_tree)
    else hint_tree
  else hint_tree.

(** The two assignments [arg.has_type_annotation = True] and
    [arg.has_type_comment = True]. *)
Definition mark_type_comment (arg : Argument.t) : Argument.t :=
  Argument.set_has_type_comment true (Argument.set_has_type_annotation true arg).

(** The alignment loop of [try_type_comment]. The [i]-th pair of
    [zip_longest(func_obj.args, argtypes)] carries the [i]-th object of
    [func_obj.args], so mutating it is an update of [store] at index [i]. *)
Fixpoint try_type_comment_loop
    (pairs : list (option Argument.t * option ast.expr)) (i : nat)
    (store : list Argument.t) : list Argument.t :=
  match pairs with
  | [] => store
  | (arg, hint_comment) :: pairs' =>
      if from_option ast.isinstance_Ellipsis false hint_comment
      then try_type_comment_loop pairs' (S i) store
      else
        match arg, hint_comment with
        | Some _, Some _ =>
            try_type_comment_loop pairs' (S i) (alter mark_type_comment i store)
        | _, _ => try_type_comment_loop pairs' (S i) store
        end
  end.

(** [try_type_comment(func_obj, node)], given the parsed comment.
    [func_obj.args[-1]] raises [IndexError] on an empty list. *)
Definition try_type_comment (func_obj : t) (hint_tree : ast.FunctionType)
  : option t :=
  let hint_tree := _maybe_inject_class_argument hint_tree func_obj in
  let store :=
    try_type_comment_loop
      (zip_longest (args func_obj) (ast.argtypes hint_tree)) 0 (args func_obj) in
  match length store with
  | O => None
  | S n =>
      Some (set_is_return_annotated true
              (set_args (alter mark_type_comment n store) func_obj))
  end.

(** The loop [for arg_type in AST_ARG_TYPES] of [from_function_node]:
    each attribute's arguments are appended to [new_function.args]. *)
Definition extend_args (node : ast.FunctionDef) (new_function : t) : t :=
  foldl (fun new_function arg_type =>
           set_args
             (args new_function
              ++ ((fun arg => Argument.from_arg_node arg arg_type)
                    <$> getattribute (ast.fargs node) arg_type))
             new_function)
        new_function AST_ARG_TYPES.

(** [from_function_node(node, lines, is_class_method=..., is_nested=...)].
    Two values computed by code outside src/ are taken as arguments:
    [def_end], the pair returned by [colon_seeker(node, lines)], which only
    positions the return slot, and [only_none_returns], the verdict of
    [ReturnVisitor]. *)
Definition from_function_node (node : ast.FunctionDef) (def_end : Z * Z)
    (only_none_returns : bool) (is_class_method is_nested : bool) : option t :=
  let function_type := get_function_type (ast.name node) in
  let class_decorator_type :=
    if is_class_method then get_class_decorator_type node else None in
  let new_function :=
    mk (ast.name node) (ast.lineno node) (ast.col_offset node) function_type
       is_class_method class_decorator_type false false true is_nested
       (ast.decorator_list node) [] in
  let new_function := extend_args node new_function in
  let return_arg := Argument.init "return" def_end.1 def_end.2 RETURN in
  let '(return_arg, new_function) :=
    if ast.returns node is Some _
    then (Argument.set_has_3107_annotation true
            (Argument.set_has_type_annotation true return_arg),
          set_is_return_annotated true new_function)
    else (return_arg, new_function) in
  let new_function := set_args (args new_function ++ [return_arg]) new_function in
  new_function ← (match ast.type_comment node with
                  | Some hint_tree =>
                      try_type_comment (set_has_type_comment true new_function)
                                       hint_tree
                  | None => Some new_function
                  end);
  Some (set_has_only_none_returns only_none_returns new_function).

End Function.

(** The alignment as the specification words it: arguments and hint
    slots are paired by position up to the shorter of the two, a slot that
    is the ellipsis placeholder contributes nothing, any other slot marks
    its argument, and unmatched trailing arguments are left as they are. *)
Fixpoint aligned (arguments : list Argument.t) (slots : list ast.expr)
  : list Argument.t :=
  match arguments, slots with
  | arg :: arguments', slot :: slots' =>
      (if ast.isinstance_Ellipsis slot then arg
       else Function.mark_type_comment arg)
      :: aligned arguments' slots'
  | _, _ => arguments
  end.

(** ** error_codes *)

Module error_codes.

(** Modelled from the spec: [error_codes.py] is not under src/. The
    diagnostic taxonomy is the twelve codes the checker names; an error
    binds a code to the name and position of an argument or of a function,
    and is reported as (line, column, bound name, code). *)
Inductive Code : Set :=
  | ANN001 | ANN002 | ANN003
  | ANN101 | ANN102
  | ANN201 | ANN202 | ANN203 | ANN204 | ANN205 | ANN206
  | ANN301.

#[global] Instance Code_eq_dec : EqDecision Code.
Proof. solve_decision. Defined.

Record Error : Set := mk_Error {
  code : Code;
  argname : string;
  lineno : Z;
  col_offset : Z
}.

Definition from_argument (c : Code) (argument : Argument.t) : Error :=
  mk_Error c (Argument.argname argument) (Argument.lineno argument)
           (Argument.col_offset argument).

Definition from_function (c : Code) (function : Function.t) : Error :=
  mk_Error c (Function.name function) (Function.lineno function)
           (Function.col_offset function).

End error_codes.

Import error_codes.

(** ** checker *)

(** [FORMATTED_ERROR = Tuple[int, int, str, error_codes.Error]]. *)
Definition FORMATTED_ERROR : Set := Z * Z * string * Code.

Definition to_flake8 (e : Error) : FORMATTED_ERROR :=
  (error_codes.lineno e, error_codes.col_offset e, error_codes.argname e,
   error_codes.code e).

Definition fe_argname (d : FORMATTED_ERROR) : string := d.1.2.

Definition fe_code (d : FORMATTED_ERROR) : Code := d.2.

(** The options flake8's configuration parser sets on the checker. *)
Record TypeHintChecker : Type := mk_TypeHintChecker {
  suppress_none_returning : bool;
  suppress_dummy_args : bool;
  allow_untyped_defs : bool;
  allow_untyped_nested : bool;
  mypy_init_return : bool;
  dispatch_decorators : gset string;
  overload_decorators : gset string
}.

(** The checker with [mypy_init_return] set to [b]. *)
Definition set_mypy_init_return (b : bool) (self : TypeHintChecker)
  : TypeHintChecker :=
  mk_TypeHintChecker (suppress_none_returning self) (suppress_dummy_args self)
    (allow_untyped_defs self) (allow_untyped_nested self) b
    (dispatch_decorators self) (overload_decorators self).

Definition _DEFAULT_DISPATCH_DECORATORS : list string :=
  ["singledispatch"; "singledispatchmethod"].

Definition _DEFAULT_OVERLOAD_DECORATORS : list string := ["overload"].

(** The checker with every option at the default [add_options] declares. *)
Definition default_options : TypeHintChecker :=
  mk_TypeHintChecker false false false false false
    (list_to_set _DEFAULT_DISPATCH_DECORATORS)
    (list_to_set _DEFAULT_OVERLOAD_DECORATORS).

Definition _return_error_classifier (is_class_method : bool)
    (class_decorator_type : option ClassDecoratorType)
    (function_type : FunctionType) : Code :=
  let fallthrough :=
    if bool_decide (function_type = SPECIAL) then ANN204
    else if bool_decide (function_type = PRIVATE) then ANN203
    else if bool_decide (function_type = PROTECTED) then ANN202
    else ANN201 in
  if is_class_method then
    if bool_decide (class_decorator_type = Some CLASSMETHOD) then ANN206
    else if bool_decide (class_decorator_type = Some STATICMETHOD) then ANN205
    else fallthrough
  else fallthrough.

Definition _argument_error_classifier (is_class_method is_first_arg : bool)
    (class_decorator_type : option ClassDecoratorType)
    (annotation_type : AnnotationType) : Code :=
  let fallthrough :=
    if bool_decide (annotation_type = KWARG) then ANN003
    else if bool_decide (annotation_type = VARARG) then ANN002
    else ANN001 in
  if is_class_method then
    if is_first_arg then
      if bool_decide (class_decorator_type = Some CLASSMETHOD) then ANN102
      else if bool_decide (class_decorator_type ≠ Some STATICMETHOD) then ANN101
      else fallthrough
    else fallthrough
  else fallthrough.

(** [classify_error(function, arg)]. [Argument] defines no [__eq__], so
    [arg == function.args[0]] is object identity; the objects of
    [function.args] are pairwise distinct, and [index] is the place of
    [arg] among them. *)
Definition classify_error (function : Function.t) (index : nat)
    (arg : Argument.t) : Error :=
  let error_code :=
    if String.eqb (Argument.argname arg) "return" then
      _return_error_classifier (Function.is_class_method function)
        (Function.class_decorator_type function)
        (Function.function_type function)
    else
      let is_first_arg := bool_decide (index = 0%nat) in
      _argument_error_classifier (Function.is_class_method function)
        is_first_arg (Function.class_decorator_type function)
        (Argument.annotation_type arg) in
  from_argument error_code arg.

(** The objects [function.get_missed_annotations()] iterates over, each
    with its place in [function.args]. *)
Definition missed_annotations_indexed (function : Function.t)
  : list (nat * Argument.t) :=
  filter (fun p => negb (Argument.has_type_annotation p.2) = true)
         (imap pair (Function.args function)).

(** The sentinel loop over the annotated arguments: one [ANN301] at the
    first argument where both sentinels are set, then [break]. *)
Fixpoint mixed_style_loop (function : Function.t)
    (has_type_comment has_3107_annotation : bool) (annotated : list Argument.t)
  : list FORMATTED_ERROR :=
  match annotated with
  | [] => []
  | arg :: annotated' =>
      let has_type_comment :=
        if Argument.has_type_comment arg then true else has_type_comment in
      let has_3107_annotation :=
        if Argument.has_3107_annotation arg then true else has_3107_annotation in
      if has_type_comment && has_3107_annotation
      then [to_flake8 (from_function ANN301 function)]
      else mixed_style_loop function has_type_comment has_3107_annotation annotated'
  end.

Definition mixed_style_errors (function : Function.t) : list FORMATTED_ERROR :=
  let has_type_comment :=
    if Function.has_type_comment function then true else false in
  let has_3107_annotation := false in
  mixed_style_loop function has_type_comment has_3107_annotation
    (Function.get_annotated_arguments function).

(** One iteration of the loop over the missed annotations: [[]] where the
    source takes a [continue], the classified error where it yields. *)
Definition missing_annotation_error (self : TypeHintChecker)
    (function : Function.t) (index : nat) (arg : Argument.t)
  : list FORMATTED_ERROR :=
  let dummy_check :=
    if String.eqb (Argument.argname arg) "_" && suppress_dummy_args self then []
    else [to_flake8 (classify_error function index arg)] in
  if String.eqb (Argument.argname arg) "return" then
    if suppress_none_returning self
       && (negb (Argument.has_type_annotation arg)
           && Function.has_only_none_returns function)
    then []
    else if mypy_init_return self
            && (Function.is_class_method function
                && String.eqb (Function.name function) "__init__")
            && negb (bool_decide (Function.get_annotated_arguments function = []))
    then []
    else dummy_check
  else dummy_check.

Definition missing_annotation_errors (self : TypeHintChecker)
    (function : Function.t) : list FORMATTED_ERROR :=
  p ← missed_annotations_indexed function;
  missing_annotation_error self function p.1 p.2.

(** [last_overload_decorated_function_name == function.name]. *)
Definition closes_overload (last_overload_decorated_function_name : option string)
    (function : Function.t) : bool :=
  bool_decide (last_overload_decorated_function_name
               = Some (Function.name function)).

(** The two early [continue]s of the loop body. *)
Definition skipped_entirely (self : TypeHintChecker) (function : Function.t)
  : bool :=
  (if Function.is_dynamically_typed function then
     if allow_untyped_defs self then true
     else if Function.is_nested function && allow_untyped_nested self then true
     else false
   else false)
  || Function.has_decorator function (dispatch_decorators self).

(** The body of the [for function in visitor.function_definitions] loop:
    the errors yielded for [function] and the value of
    [last_overload_decorated_function_name] after it. *)
Definition run_function (self : TypeHintChecker)
    (last_overload_decorated_function_name : option string)
    (function : Function.t) : list FORMATTED_ERROR * option string :=
  if skipped_entirely self function
  then ([], last_overload_decorated_function_name)
  else
    let mixed := mixed_style_errors function in
    if closes_overload last_overload_decorated_function_name function
    then (mixed, last_overload_decorated_function_name)
    else
      let last_overload_decorated_function_name :=
        if Function.has_decorator function (overload_decorators self)
        then Some (Function.name function)
        else last_overload_decorated_function_name in
      (mixed ++ missing_annotation_errors self function,
       last_overload_decorated_function_name).

Fixpoint run_loop (self : TypeHintChecker)
    (last_overload_decorated_function_name : option string)
    (function_definitions : list Function.t) : list FORMATTED_ERROR :=
  match function_definitions with
  | [] => []
  | function :: function_definitions' =>
      let r := run_function self last_overload_decorated_function_name function in
      r.1 ++ run_loop self r.2 function_definitions'
  end.

(** [TypeHintChecker.run], given the definitions [FunctionVisitor]
    collected in source order. *)
Definition run (self : TypeHintChecker) (function_definitions : list Function.t)
  : list FORMATTED_ERROR :=
  run_loop self None function_definitions.

(** ** Sample definitions

    Small source files, written as the nodes the parser hands over and as
    the [Function] values built from them. *)

Module samples.

Definition plain_arg (argname : string) (lineno col_offset : Z) : ast.arg :=
  ast.mk_arg argname lineno col_offset None None.

Definition inline_arg (argname : string) (lineno col_offset : Z) : ast.arg :=
  ast.mk_arg argname lineno col_offset (Some (ast.Name "int")) None.

Definition positional (l : list ast.arg) : ast.arguments :=
  ast.mk_arguments [] l None [] None.

(** [[
@overload
def foo(a): ...
@overload
def foo(a): ...
def foo(a): ...
]] *)
Definition foo_node (lineno : Z) (decorator_list : list ast.expr)
  : ast.FunctionDef :=
  ast.mk_FunctionDef "foo" lineno 0 decorator_list
    (positional [plain_arg "a" lineno 8]) None None.

Definition foo (lineno : Z) (decorator_list : list ast.expr) : Function.t :=
  Function.mk "foo" lineno 0 PUBLIC false None false false true false
    decorator_list
    [Argument.mk "a" lineno 8 ARGS false false false;
     Argument.mk "return" lineno 10 RETURN false false false].

Definition foo_1 : Function.t := foo 2 [ast.Name "overload"].
Definition foo_2 : Function.t := foo 4 [ast.Name "overload"].
Definition foo_3 : Function.t := foo 5 [].

(** [[
class Foo:
    def bar(self, a):  # type: (int) -> int
        ...
]] *)
Definition bar_comment_node : ast.FunctionDef :=
  ast.mk_FunctionDef "bar" 2 4 []
    (positional [plain_arg "self" 2 12; plain_arg "a" 2 18]) None
    (Some (ast.mk_FunctionType [ast.Name "int"])).

Definition bar_comment : Function.t :=
  Function.mk "bar" 2 4 PUBLIC true None true true true false []
    [Argument.mk "self" 2 12 ARGS false false false;
     Argument.mk "a" 2 18 ARGS true false true;
     Argument.mk "return" 2 20 RETURN true false true].

(** [bar] as [from_function_node] hands it to [try_type_comment]. *)
Definition bar_before_comment : Function.t :=
  Function.mk "bar" 2 4 PUBLIC true None false true true false []
    [Argument.mk "self" 2 12 ARGS false false false;
     Argument.mk "a" 2 18 ARGS false false false;
     Argument.mk "return" 2 20 RETURN false false false].

(** [[
class Foo:
    def bar(self, a: int) -> int:
        ...
]] *)
Definition bar_inline_node : ast.FunctionDef :=
  ast.mk_FunctionDef "bar" 2 4 []
    (positional [plain_arg "self" 2 12; inline_arg "a" 2 18])
    (Some (ast.Name "int")) None.

Definition bar_inline : Function.t :=
  Function.mk "bar" 2 4 PUBLIC true None true false true false []
    [Argument.mk "self" 2 12 ARGS false false false;
     Argument.mk "a" 2 18 ARGS true true false;
     Argument.mk "return" 2 32 RETURN true true false].

(** [[
class Foo:
    @classmethod()
    @staticmethod
    @classmethod
    def baz(cls): ...
]] *)
Definition baz_node : ast.FunctionDef :=
  ast.mk_FunctionDef "baz" 5 4
    [ast.Call (ast.Name "classmethod"); ast.Name "staticmethod";
     ast.Name "classmethod"]
    (positional [plain_arg "cls" 5 12]) None None.

(** [[
def qux(
    a: int,
    b,  # type: str
    c,
):
    ...
]] *)
Definition qux : Function.t :=
  Function.mk "qux" 1 0 PUBLIC false None false false true false []
    [Argument.mk "a" 2 4 ARGS true true false;
     Argument.mk "b" 3 4 ARGS true false true;
     Argument.mk "c" 4 4 ARGS false false false;
     Argument.mk "return" 5 1 RETURN false false false].

(** [[
class Foo:
    def __init__(self, a: int):
        ...
]] *)
Definition init_method : Function.t :=
  Function.mk "__init__" 2 4 SPECIAL true None false false true false []
    [Argument.mk "self" 2 17 ARGS false false false;
     Argument.mk "a" 2 23 ARGS true true false;
     Argument.mk "return" 2 30 RETURN false false false].

(** [[
@overload
def foo(a): ...
def foo(a: int): ...
]]
    The second definition, on line 3. *)
Definition foo_closing : Function.t :=
  Function.mk "foo" 3 0 PUBLIC false None false false true false []
    [Argument.mk "a" 3 8 ARGS true true false;
     Argument.mk "return" 3 15 RETURN false false false].

(** The default options with [--allow-untyped-defs]. *)
Definition untyped_options : TypeHintChecker :=
  mk_TypeHintChecker false false true false false
    (list_to_set _DEFAULT_DISPATCH_DECORATORS)
    (list_to_set _DEFAULT_OVERLOAD_DECORATORS).

(** The default options with [--mypy-init-return]. *)
Definition mypy_options : TypeHintChecker :=
  mk_TypeHintChecker false false false false true
    (list_to_set _DEFAULT_DISPATCH_DECORATORS)
    (list_to_set _DEFAULT_OVERLOAD_DECORATORS).

End samples.

(** ** Vocabulary of the further properties *)

(** The name a decorator is matched by: the identifier of a name, the
    final attribute of an attribute access, and for a call the name of the
    called expression; no name for any other shape. *)
Fixpoint decorator_name (decorator : ast.expr) : option string :=
  match decorator with
  | ast.Name id => Some id
  | ast.Attribute _ attr => Some attr
  | ast.Call func => decorator_name func
  | _ => None
  end.

(** The argument nodes of a definition in the order [from_function_node]
    visits them, each with the annotation type of its attribute. *)
Definition node_args (a : ast.arguments) : list (ast.arg * AnnotationType) :=
  arg_type ← AST_ARG_TYPES;
  (λ arg, (arg, arg_type)) <$> getattribute a arg_type.

(** Whether an argument node carries an annotation of either style. *)
Definition node_arg_hinted (arg : ast.arg) : bool :=
  (if ast.arg_annotation arg is Some _ then true else false)
  || truthy_str (ast.arg_type_comment arg).

(** The return slot as [from_function_node] creates it, before any
    function-level type comment is read. *)
Definition return_slot (node : ast.FunctionDef) (def_end : Z * Z) : Argument.t :=
  let return_arg := Argument.init "return" def_end.1 def_end.2 RETURN in
  if ast.returns node is Some _
  then Argument.set_has_3107_annotation true
         (Argument.set_has_type_annotation true return_arg)
  else return_arg.

(** The slots of a definition before any function-level type comment is
    read: one per argument node, then the return slot. *)
Definition node_slots (node : ast.FunctionDef) (def_end : Z * Z)
  : list Argument.t :=
  ((λ p, Argument.from_arg_node p.1 p.2) <$> node_args (ast.fargs node))
  ++ [return_slot node def_end].

(** The function [from_function_node] has built when it reaches the test
    of [node.type_comment], [has_type_comment] being the outcome of that
    test. *)
Definition built_function (node : ast.FunctionDef) (def_end : Z * Z)
    (is_class_method is_nested has_type_comment : bool) : Function.t :=
  Function.mk (ast.name node) (ast.lineno node) (ast.col_offset node)
    (Function.get_function_type (ast.name node)) is_class_method
    (if is_class_method then Function.get_class_decorator_type node else None)
    (if ast.returns node is Some _ then true else false)
    has_type_comment true is_nested (ast.decorator_list node)
    (node_slots node def_end).

(** Where an argument sits and what it is called: the part of an
    [Argument] an error is bound to. *)
Definition place (arg : Argument.t) : Z * Z * string :=
  (Argument.lineno arg, Argument.col_offset arg, Argument.argname arg).

Definition error_place (d : FORMATTED_ERROR) : Z * Z * string := d.1.

(** What the comment pass may turn an argument into: itself, or itself
    with [has_type_annotation] and [has_type_comment] set. *)
Definition marked_from (before after : Argument.t) : Prop :=
  after = before ∨ after = Function.mark_type_comment before.

(** The value of [last_overload_decorated_function_name] after the loop of
    [run] has gone through [function_definitions]. *)
Fixpoint overload_name_after (self : TypeHintChecker)
    (last_overload_decorated_function_name : option string)
    (function_definitions : list Function.t) : option string :=
  match function_definitions with
  | [] => last_overload_decorated_function_name
  | function :: function_definitions' =>
      overload_name_after self
        (run_function self last_overload_decorated_function_name function).2
        function_definitions'
  end.

Definition set_suppress_none_returning (b : bool) (self : TypeHintChecker)
  : TypeHintChecker :=
  mk_TypeHintChecker b (suppress_dummy_args self)
    (allow_untyped_defs self) (allow_untyped_nested self) (mypy_init_return self)
    (dispatch_decorators self) (overload_decorators self).

Definition set_suppress_dummy_args (b : bool) (self : TypeHintChecker)
  : TypeHintChecker :=
  mk_TypeHintChecker (suppress_none_returning self) b
    (allow_untyped_defs self) (allow_untyped_nested self) (mypy_init_return self)
    (dispatch_decorators self) (overload_decorators self).

Definition set_allow_untyped_nested (b : bool) (self : TypeHintChecker)
  : TypeHintChecker :=
  mk_TypeHintChecker (suppress_none_returning self) (suppress_dummy_args self)
    (allow_untyped_defs self) b (mypy_init_return self)
    (dispatch_decorators self) (overload_decorators self).

(** ** checker, continued *)

(** The [argparse.Namespace] flake8 hands to [parse_options]: the seven
    options [add_options] registers, the two decorator options as the
    comma-separated lists flake8 has split. *)
Record Namespace : Set := mk_Namespace {
  ns_suppress_none_returning : bool;
  ns_suppress_dummy_args : bool;
  ns_allow_untyped_defs : bool;
  ns_allow_untyped_nested : bool;
  ns_mypy_init_return : bool;
  ns_dispatch_decorators : list string;
  ns_overload_decorators : list string
}.

(** [TypeHintChecker.parse_options(options)]: the checker's options
    after the call. *)
Definition parse_options (options : Namespace) : TypeHintChecker :=
  mk_TypeHintChecker
    (ns_suppress_none_returning options)
    (ns_suppress_dummy_args options)
    (ns_allow_untyped_defs options)
    (ns_allow_untyped_nested options)
    (ns_mypy_init_return options)
    (list_to_set (ns_dispatch_decorators options))
    (list_to_set (ns_overload_decorators options)).

(** ** models.Function, continued: the closing colon *)

(** Python's [l[i]]: a negative index counts from the end, and an index
    out of range raises [IndexError]. *)
Definition py_getitem {A : Type} (l : list A) (i : Z) : option A :=
  let n := Z.of_nat (length l) in
  if 0 <=? i then l !! Z.to_nat i
  else if - n <=? i then l !! Z.to_nat (n + i)
  else None.

(** The bounds of [s[start:end]] as the string methods adjust them: an
    absent bound is the whole string, a negative one counts from the end,
    and both are clipped to the string. *)
Definition adjust_start (len : Z) (start : option Z) : Z :=
  let start := default 0 start in
  if start <? 0 then Z.max 0 (start + len) else start.

Definition adjust_end (len : Z) (end_ : option Z) : Z :=
  let end_ := default len end_ in
  if len <? end_ then len
  else if end_ <? 0 then Z.max 0 (end_ + len)
  else end_.

(** The search of [str.rfind]: the candidates [start + count - 1] down to
    [start], the highest one at which [sub] occurs, or [-1]. *)
Fixpoint rfind_from (s sub : string) (start count : nat) : Z :=
  match count with
  | O => -1
  | S count' =>
      if String.eqb (String.substring (start + count') (String.length sub) s) sub
      then Z.of_nat (start + count')
      else rfind_from s sub start count'
  end.

(** [s.rfind(sub, start, end)]: the highest index at which [sub] occurs
    within [s[start:end]], or [-1]. *)
Definition rfind (s sub : string) (start end_ : option Z) : Z :=
  let len := Z.of_nat (String.length s) in
  let start := adjust_start len start in
  let end_ := adjust_end len end_ in
  let m := Z.of_nat (String.length sub) in
  if end_ - start <? m then -1
  else rfind_from s sub (Z.to_nat start) (Z.to_nat (end_ - start - m + 1)).

(** [sub in s]. *)
Fixpoint contains (sub s : string) : bool :=
  String.prefix sub s
  || match s with
     | EmptyString => false
     | String _ s' => contains sub s'
     end.

(** [s.count(sub)], the number of occurrences that do not overlap;
    [skip] characters of the last occurrence are still to be passed. *)
Fixpoint count_from (sub : string) (skip : nat) (s : string) : nat :=
  match s with
  | EmptyString => if String.eqb sub "" then 1 else 0
  | String _ s' =>
      match skip with
      | S skip' => count_from sub skip' s'
      | O =>
          if String.prefix sub s
          then S (count_from sub (String.length sub - 1) s')
          else count_from sub 0 s'
      end
  end.

Definition count (s sub : string) : nat := count_from sub 0 s.

(** The three double quotes that open and close a docstring; 34 is the
    code of the double quote. *)
Definition triple_quote : string :=
  let quote := Ascii.ascii_of_nat 34 in
  String quote (String quote (String quote EmptyString)).

Module colon.

(** [_single_line_colon_seeker(node, line)]; [body0] is the position
    [(lineno, col_offset)] of [node.body[0]], the only part of the body the
    two seekers read. *)
Definition _single_line_colon_seeker (node : ast.FunctionDef) (body0 : Z * Z)
    (line : string) : Z * Z :=
  let col_start := ast.col_offset node in
  let col_end := body0.2 in
  let def_end_col_offset := rfind line ":" (Some col_start) (Some col_end) in
  (ast.lineno node, def_end_col_offset).

(** The [while True] loop of [colon_seeker]: step up one line at a time
    until a line holds the triple quote; an index out of range raises
    [IndexError]. Every pass lowers the index, so that [fuel] passes, for
    [fuel] above the distance to the lowest valid index, are as good as
    any number. *)
Fixpoint rewind_docstring (fuel : nat) (lines : list string)
    (def_end_lineno : Z) : option Z :=
  match fuel with
  | O => None
  | S fuel' =>
      let def_end_lineno := def_end_lineno - 1 in
      line ← py_getitem lines (def_end_lineno - 1);
      if contains triple_quote line then Some def_end_lineno
      else rewind_docstring fuel' lines def_end_lineno
  end.

Definition rewind_fuel (lines : list string) (def_end_lineno : Z) : nat :=
  S (Z.to_nat (def_end_lineno + Z.of_nat (length lines))).

(** [colon_seeker(node, lines)]. [PY_GTE_38], a constant of the package
    that is not under src/, is taken as an argument. *)
Definition colon_seeker (PY_GTE_38 : bool) (node : ast.FunctionDef)
    (body0 : Z * Z) (lines : list string) : option (Z * Z) :=
  if bool_decide (ast.lineno node = body0.1) then
    line ← py_getitem lines (ast.lineno node - 1);
    Some (_single_line_colon_seeker node body0 line)
  else
    let def_end_lineno := body0.1 in
    def_end_lineno ←
      (if negb PY_GTE_38 then
         line ← py_getitem lines (def_end_lineno - 1);
         let n_triple_quotes := count line triple_quote in
         if bool_decide (n_triple_quotes = 1%nat)
         then rewind_docstring (rewind_fuel lines def_end_lineno) lines
                def_end_lineno
         else Some def_end_lineno
       else Some def_end_lineno);
    let def_end_lineno := def_end_lineno - 1 in
    line ← py_getitem lines (def_end_lineno - 1);
    let def_end_col_offset := rfind line ":" None None in
    Some (def_end_lineno, def_end_col_offset).

End colon.

Module more_samples.

(** [[
class Foo:
    def bar(self: Foo, a: int) -> int:
        ...
]] *)
Definition bar_inline_full : Function.t :=
  Function.mk "bar" 2 4 PUBLIC true None true false true false []
    [Argument.mk "self" 2 12 ARGS true true false;
     Argument.mk "a" 2 23 ARGS true true false;
     Argument.mk "return" 2 37 RETURN true true false].

(** [[
class Foo:
    def bar(self, a):  # type: (Foo, int) -> int
        ...
]] *)
Definition bar_comment_full : Function.t :=
  Function.mk "bar" 5 4 PUBLIC true None true true true false []
    [Argument.mk "self" 5 12 ARGS true false true;
     Argument.mk "a" 5 18 ARGS true false true;
     Argument.mk "return" 5 20 RETURN true false true].

(** [[
def on_event(_, payload: bytes): ...
]] *)
Definition on_event : Function.t :=
  Function.mk "on_event" 1 0 PUBLIC false None false false true false []
    [Argument.mk "_" 1 13 ARGS false false false;
     Argument.mk "payload" 1 16 ARGS true true false;
     Argument.mk "return" 1 31 RETURN false false false].

(** The default options with [--suppress-dummy-args]. *)
Definition dummy_options : TypeHintChecker :=
  mk_TypeHintChecker false true false false false
    (list_to_set _DEFAULT_DISPATCH_DECORATORS)
    (list_to_set _DEFAULT_OVERLOAD_DECORATORS).

(** The default options with [--suppress-none-returning]. *)
Definition none_returning_options : TypeHintChecker :=
  mk_TypeHintChecker true false false false false
    (list_to_set _DEFAULT_DISPATCH_DECORATORS)
    (list_to_set _DEFAULT_OVERLOAD_DECORATORS).

End more_samples.

(** * Properties *)

(** ** Classification engine *)

(** C1. The return-slot classifier is a function of its three arguments
    alone: inside a class a [staticmethod] gives ANN205 and a [classmethod]
    gives ANN206 whatever the function type; in every other case, and
    always outside a class whatever the decorator type, the code is read
    off the function type: SPECIAL ANN204, PRIVATE ANN203, PROTECTED ANN202,
    PUBLIC ANN201. *)
Theorem return_error_classifier_table :
  (∀ function_type,
      _return_error_classifier true (Some STATICMETHOD) function_type = ANN205)
  ∧ (∀ function_type,
      _return_error_classifier true (Some CLASSMETHOD) function_type = ANN206)
  ∧ (∀ function_type,
      _return_error_classifier true None function_type
      = match function_type with
        | SPECIAL => ANN204
        | PRIVATE => ANN203
        | PROTECTED => ANN202
        | PUBLIC => ANN201
        end)
  ∧ (∀ class_decorator_type function_type,
      _return_error_classifier false class_decorator_type function_type
      = match function_type with
        | SPECIAL => ANN204
        | PRIVATE => ANN203
        | PROTECTED => ANN202
        | PUBLIC => ANN201
        end).
Proof.
  split_and!.
  - by intros [].
  - by intros [].
  - by intros [].
  - by intros [[]|] [].
Qed.

(** C2. The argument classifier: for the first argument of a method that
    is not a [staticmethod] the code is ANN102 under [classmethod] and
    ANN101 otherwise; in every other case it is read off the annotation
    type: KWARG ANN003, VARARG ANN002, anything else ANN001. *)
Theorem argument_error_classifier_table :
  ∀ is_class_method is_first_arg class_decorator_type annotation_type,
    _argument_error_classifier is_class_method is_first_arg
      class_decorator_type annotation_type
    = if is_class_method && is_first_arg
         && bool_decide (class_decorator_type ≠ Some STATICMETHOD)
      then
        if bool_decide (class_decorator_type = Some CLASSMETHOD)
        then ANN102 else ANN101
      else
        match annotation_type with
        | KWARG => ANN003
        | VARARG => ANN002
        | POSONLYARGS | ARGS | KWONLYARGS | RETURN => ANN001
        end.
Proof. by intros [] [] [[]|] []. Qed.

(** ** The Function model *)

Section flags.

Context {A : Type} (flag : A → bool).

Lemma filter_flag_complement (l : list A) :
  filter (λ x, flag x = true) l ++ filter (λ x, negb (flag x) = true) l ≡ₚ l.
Proof.
  induction l as [|x l IH]; [done|].
  rewrite !filter_cons. destruct (flag x) eqn:Hx; simpl.
  - by f_equiv.
  - rewrite <- Permutation_middle. by f_equiv.
Qed.

Lemma filter_flag_nil (l : list A) :
  filter (λ x, flag x = true) l = [] ↔ existsb flag l = false.
Proof.
  induction l as [|x l IH]; [done|].
  rewrite filter_cons. simpl. destruct (flag x); simpl; [|done].
  split; discriminate.
Qed.

Lemma filter_unflag_nil (l : list A) :
  filter (λ x, negb (flag x) = true) l = [] ↔ forallb flag l = true.
Proof.
  induction l as [|x l IH]; [done|].
  rewrite filter_cons. simpl. destruct (flag x); simpl; [done|].
  split; discriminate.
Qed.

End flags.

(** C10. The annotated and the missed arguments split [args]: together
    they are [args] up to order, each keeps the declaration order, and an
    argument of [args] lies in exactly one of them. A function is
    dynamically typed iff no argument is annotated, fully annotated iff none
    is missed, and with a non-empty [args] it is never both. *)
Theorem annotated_missed_partition (f : Function.t) :
  Function.get_annotated_arguments f ++ Function.get_missed_annotations f
    ≡ₚ Function.args f
  ∧ Function.get_annotated_arguments f `sublist_of` Function.args f
  ∧ Function.get_missed_annotations f `sublist_of` Function.args f
  ∧ (∀ arg, arg ∈ Function.args f →
       (arg ∈ Function.get_annotated_arguments f
        ∧ arg ∉ Function.get_missed_annotations f)
       ∨ (arg ∈ Function.get_missed_annotations f
          ∧ arg ∉ Function.get_annotated_arguments f))
  ∧ (Function.is_dynamically_typed f = true
     ↔ Function.get_annotated_arguments f = [])
  ∧ (Function.is_fully_annotated f = true
     ↔ Function.get_missed_annotations f = [])
  ∧ (Function.args f ≠ [] →
     Function.is_fully_annotated f && Function.is_dynamically_typed f = false).
Proof.
  unfold Function.get_annotated_arguments, Function.get_missed_annotations,
    Function.is_dynamically_typed, Function.is_fully_annotated.
  split_and!.
  - apply filter_flag_complement.
  - apply sublist_filter.
  - apply sublist_filter.
  - intros arg Harg. rewrite !list_elem_of_filter.
    destruct (Argument.has_type_annotation arg) eqn:Hflag; simpl.
    + left. split; [done|]. by intros [? _].
    + right. split; [done|]. by intros [? _].
  - rewrite filter_flag_nil. by destruct (existsb _ _).
  - by rewrite filter_unflag_nil.
  - destruct (Function.args f) as [|arg l]; [done|]. intros _. simpl.
    destruct (Argument.has_type_annotation arg); simpl; [|done].
    apply andb_false_r.
Qed.

(** A witness of [annotated_missed_partition]: the method [bar] with its
    comment-style hints has a non-empty [args], one missed argument and two
    annotated ones. *)
Lemma annotated_missed_partition_witness :
  Function.args samples.bar_comment ≠ []
  ∧ Function.is_fully_annotated samples.bar_comment
    && Function.is_dynamically_typed samples.bar_comment = false.
Proof.
  split; [done|].
  apply (annotated_missed_partition samples.bar_comment). done.
Defined.

(** The names [get_class_decorator_type] collects are those of the
    [ast.Name] decorators, whatever else the list holds. *)
Lemma omap_Name_filter (l : list ast.expr) :
  omap (λ decorator, match decorator with ast.Name id => Some id | _ => None end)
       (filter (λ decorator, ast.isinstance_Name decorator = true) l)
  = omap (λ decorator, match decorator with ast.Name id => Some id | _ => None end)
         l.
Proof.
  induction l as [|d l IH]; [done|].
  rewrite filter_cons. case_decide as Hd; destruct d; simpl in Hd; try done;
    simpl; first [exact IH | f_equal; exact IH].
Qed.

Lemma elem_of_omap_Name (l : list ast.expr) (id : string) :
  id ∈ omap (λ decorator,
               match decorator with ast.Name id => Some id | _ => None end) l
  ↔ ast.Name id ∈ l.
Proof.
  rewrite list_elem_of_omap. split.
  - intros (d & Hd & Heq). destruct d; try discriminate.
    by injection Heq as ->.
  - intros Hd. by exists (ast.Name id).
Qed.

(** C9. [get_class_decorator_type] reads the bare-name decorators only:
    two nodes whose [ast.Name] decorators agree get the same answer. With
    both [classmethod] and [staticmethod] among them the answer is
    CLASSMETHOD, in whatever order they appear; with neither it is [None]. *)
Theorem get_class_decorator_type_bare_names (node : ast.FunctionDef) :
  (∀ node',
      filter (λ decorator, ast.isinstance_Name decorator = true)
             (ast.decorator_list node')
      = filter (λ decorator, ast.isinstance_Name decorator = true)
               (ast.decorator_list node) →
      Function.get_class_decorator_type node'
      = Function.get_class_decorator_type node)
  ∧ (ast.Name "classmethod" ∈ ast.decorator_list node →
     ast.Name "staticmethod" ∈ ast.decorator_list node →
     Function.get_class_decorator_type node = Some CLASSMETHOD)
  ∧ (ast.Name "classmethod" ∉ ast.decorator_list node →
     ast.Name "staticmethod" ∉ ast.decorator_list node →
     Function.get_class_decorator_type node = None).
Proof.
  unfold Function.get_class_decorator_type. split_and!.
  - intros node' Hnames.
    by rewrite <- (omap_Name_filter (ast.decorator_list node')), Hnames,
      omap_Name_filter.
  - intros Hclass _. rewrite bool_decide_eq_true_2; [done|].
    by apply elem_of_omap_Name.
  - intros Hclass Hstatic.
    rewrite !bool_decide_eq_false_2; [done| |]; by rewrite elem_of_omap_Name.
Qed.

(** A witness of [get_class_decorator_type_bare_names]: [baz] carries
    [staticmethod] before [classmethod], and a call decorator that is not
    consulted. *)
Lemma get_class_decorator_type_bare_names_witness :
  ast.Name "classmethod" ∈ ast.decorator_list samples.baz_node
  ∧ ast.Name "staticmethod" ∈ ast.decorator_list samples.baz_node
  ∧ Function.get_class_decorator_type samples.baz_node = Some CLASSMETHOD.
Proof.
  assert (Hclass : ast.Name "classmethod" ∈ ast.decorator_list samples.baz_node)
    by (simpl; repeat constructor).
  assert (Hstatic : ast.Name "staticmethod" ∈ ast.decorator_list samples.baz_node)
    by (simpl; repeat constructor).
  split_and!; [done|done|].
  exact (proj1 (proj2 (get_class_decorator_type_bare_names samples.baz_node))
               Hclass Hstatic).
Defined.

(** *** The flags of an argument *)

Lemma flags_agree_from_arg_node (node : ast.arg) (annotation_type : AnnotationType) :
  flags_agree (Argument.from_arg_node node annotation_type).
Proof.
  unfold flags_agree, Argument.from_arg_node.
  by destruct (ast.arg_annotation node), (truthy_str (ast.arg_type_comment node)).
Qed.

Lemma flags_agree_mark_type_comment (arg : Argument.t) :
  flags_agree (Function.mark_type_comment arg).
Proof. unfold flags_agree. simpl. by rewrite orb_true_r. Qed.

Lemma try_type_comment_loop_length pairs i store :
  length (Function.try_type_comment_loop pairs i store) = length store.
Proof.
  revert i store. induction pairs as [|[arg hint_comment] pairs IH];
    intros i store; simpl; [done|].
  destruct (from_option _ _ _); [apply IH|].
  destruct arg, hint_comment; rewrite IH, ?length_alter; done.
Qed.

Lemma try_type_comment_loop_flags_agree pairs i store :
  Forall flags_agree store →
  Forall flags_agree (Function.try_type_comment_loop pairs i store).
Proof.
  revert i store. induction pairs as [|[arg hint_comment] pairs IH];
    intros i store Hstore; simpl; [done|].
  destruct (from_option _ _ _); [by apply IH|].
  destruct arg, hint_comment; apply IH; try done.
  apply Forall_alter; [done|]. intros. apply flags_agree_mark_type_comment.
Qed.

Lemma try_type_comment_is_Some (func_obj : Function.t) hint_tree :
  Function.args func_obj ≠ [] →
  is_Some (Function.try_type_comment func_obj hint_tree).
Proof.
  intros Hargs. unfold Function.try_type_comment.
  destruct (length _) eqn:Hlen; [|done].
  rewrite try_type_comment_loop_length in Hlen.
  by apply nil_length_inv in Hlen.
Qed.

Lemma try_type_comment_flags_agree (func_obj func_obj' : Function.t) hint_tree :
  Forall flags_agree (Function.args func_obj) →
  Function.try_type_comment func_obj hint_tree = Some func_obj' →
  Forall flags_agree (Function.args func_obj').
Proof.
  unfold Function.try_type_comment. intros Hargs Hcomment.
  destruct (length _); [done|]. injection Hcomment as <-. simpl.
  apply Forall_alter; [|intros; apply flags_agree_mark_type_comment].
  by apply try_type_comment_loop_flags_agree.
Qed.

Lemma extend_args_flags_agree (node : ast.FunctionDef) (new_function : Function.t) :
  Forall flags_agree (Function.args new_function) →
  Forall flags_agree (Function.args (Function.extend_args node new_function)).
Proof.
  unfold Function.extend_args. revert new_function.
  induction AST_ARG_TYPES as [|arg_type arg_types IH];
    intros new_function Hargs; simpl; [done|].
  apply IH. simpl. apply Forall_app. split; [done|].
  apply Forall_fmap, Forall_forall. intros. apply flags_agree_from_arg_node.
Qed.

(** C8. Every argument of the pipeline has
    [has_type_annotation = has_3107_annotation || has_type_comment]: the
    arguments [from_arg_node] builds, the arguments [try_type_comment]
    leaves behind when it starts from arguments that have it, and all the
    arguments, return slot included, of the function [from_function_node]
    returns, which it always does. *)
Theorem flags_agree_pipeline :
  (∀ node annotation_type,
      flags_agree (Argument.from_arg_node node annotation_type))
  ∧ (∀ func_obj hint_tree func_obj',
      Forall flags_agree (Function.args func_obj) →
      Function.try_type_comment func_obj hint_tree = Some func_obj' →
      Forall flags_agree (Function.args func_obj'))
  ∧ (∀ node def_end only_none_returns is_class_method is_nested,
      ∃ function,
        Function.from_function_node node def_end only_none_returns
          is_class_method is_nested = Some function
        ∧ Forall flags_agree (Function.args function)).
Proof.
  split_and!.
  - apply flags_agree_from_arg_node.
  - intros func_obj hint_tree func_obj'. apply try_type_comment_flags_agree.
  - intros node def_end only_none_returns is_class_method is_nested.
    unfold Function.from_function_node.
    match goal with
    | |- context [Function.extend_args node ?f] =>
        pose proof (extend_args_flags_agree node f (Forall_nil_2 _)) as Hbuilt;
        revert Hbuilt; generalize (Function.extend_args node f)
    end.
    intros built Hbuilt.
    destruct (ast.returns node), (ast.type_comment node) as [hint_tree|]; simpl.
    all: try (eexists; split; [done|]; simpl; apply Forall_app; split; [done|];
              by repeat constructor).
    all: match goal with
         | |- context [Function.try_type_comment ?f ?h] =>
             destruct (Function.try_type_comment f h) as [function|] eqn:Hcomment;
             [|destruct (try_type_comment_is_Some f h) as [? Hsome];
               [simpl; by intros [_ ?]%app_eq_nil | congruence]]
         end.
    all: eexists; split; [done|]; simpl.
    all: eapply try_type_comment_flags_agree; [|exact Hcomment].
    all: simpl; apply Forall_app; split; [done|]; by repeat constructor.
Qed.

(** A witness of [flags_agree_pipeline]: the alignment pass run on [bar]
    with the comment [(int) -> int]. *)
Lemma flags_agree_pipeline_witness :
  Forall flags_agree (Function.args samples.bar_before_comment)
  ∧ Function.try_type_comment samples.bar_before_comment
      (ast.mk_FunctionType [ast.Name "int"]) = Some samples.bar_comment
  ∧ Forall flags_agree (Function.args samples.bar_comment).
Proof.
  assert (Hbefore : Forall flags_agree (Function.args samples.bar_before_comment))
    by (repeat constructor).
  assert (Hcomment :
            Function.try_type_comment samples.bar_before_comment
              (ast.mk_FunctionType [ast.Name "int"]) = Some samples.bar_comment)
    by reflexivity.
  split_and!; [done|done|].
  exact (proj1 (proj2 flags_agree_pipeline) _ _ _ Hbefore Hcomment).
Defined.

(** *** Alignment of a function-level type comment *)

Example get_function_type_samples :
  Function.get_function_type "__init__" = SPECIAL
  ∧ Function.get_function_type "__mangled" = PRIVATE
  ∧ Function.get_function_type "_helper" = PROTECTED
  ∧ Function.get_function_type "bar" = PUBLIC.
Proof. done. Qed.

Lemma aligned_nil_r (arguments : list Argument.t) : aligned arguments [] = arguments.
Proof. by destruct arguments. Qed.

Lemma try_type_comment_loop_unpaired slots i store :
  Function.try_type_comment_loop ((λ slot, (None, Some slot)) <$> slots) i store
  = store.
Proof.
  revert i. induction slots as [|slot slots IH]; intros i; simpl; [done|].
  by destruct (ast.isinstance_Ellipsis slot).
Qed.

(** The loop of [try_type_comment], which updates the stored arguments by
    index, computes the positional alignment. *)
Lemma try_type_comment_loop_aligned arguments slots done_args :
  Function.try_type_comment_loop (zip_longest arguments slots)
    (length done_args) (done_args ++ arguments)
  = done_args ++ aligned arguments slots.
Proof.
  revert slots done_args.
  induction arguments as [|arg arguments IH]; intros slots done_args.
  - simpl. rewrite try_type_comment_loop_unpaired. by destruct slots.
  - destruct slots as [|slot slots]; simpl.
    + specialize (IH [] (done_args ++ [arg])).
      rewrite length_app, Nat.add_1_r, <- !app_assoc, aligned_nil_r in IH.
      exact IH.
    + destruct (ast.isinstance_Ellipsis slot).
      * specialize (IH slots (done_args ++ [arg])).
        by rewrite length_app, Nat.add_1_r, <- !app_assoc in IH.
      * replace (alter Function.mark_type_comment (length done_args)
                   (done_args ++ arg :: arguments))
          with (done_args ++ [Function.mark_type_comment arg] ++ arguments).
        -- specialize (IH slots (done_args ++ [Function.mark_type_comment arg])).
           by rewrite length_app, Nat.add_1_r, <- !app_assoc in IH.
        -- by rewrite <- (Nat.add_0_r (length done_args)), alter_app_r.
Qed.

(** [try_type_comment] on a function with a return slot: the arguments
    are aligned with the comment after the receiver injection, and the last
    one, the return slot, is marked. *)
Lemma try_type_comment_aligned (func_obj : Function.t) hint_tree :
  Function.args func_obj ≠ [] →
  Function.try_type_comment func_obj hint_tree
  = Some (Function.set_is_return_annotated true
            (Function.set_args
               (alter Function.mark_type_comment
                  (length (Function.args func_obj) - 1)%nat
                  (aligned (Function.args func_obj)
                     (ast.argtypes
                        (Function._maybe_inject_class_argument hint_tree
                           func_obj))))
               func_obj)).
Proof.
  intros Hargs. unfold Function.try_type_comment.
  pose proof (try_type_comment_loop_aligned (Function.args func_obj)
                (ast.argtypes
                   (Function._maybe_inject_class_argument hint_tree func_obj))
                []) as Hloop.
  simpl in Hloop. rewrite Hloop.
  pose proof (try_type_comment_loop_length
                (zip_longest (Function.args func_obj)
                   (ast.argtypes
                      (Function._maybe_inject_class_argument hint_tree func_obj)))
                0 (Function.args func_obj)) as Hlen.
  rewrite Hloop in Hlen. rewrite Hlen.
  destruct (Function.args func_obj) as [|arg arguments]; [done|].
  cbn [length]. by rewrite Nat.sub_succ, Nat.sub_0_r.
Qed.

Lemma aligned_all_hinted params slots rest :
  length slots = length params →
  Forall (λ slot, ast.isinstance_Ellipsis slot = false) slots →
  aligned (params ++ rest) slots = (Function.mark_type_comment <$> params) ++ rest.
Proof.
  revert slots. induction params as [|arg params IH]; intros slots Hlen Hslots.
  - destruct slots; [|done]. apply aligned_nil_r.
  - destruct slots as [|slot slots]; [done|]. simpl in *.
    inversion Hslots as [|?? Hslot Hslots']; subst.
    rewrite Hslot, IH; [done|lia|done].
Qed.

(** The rule of [_maybe_inject_class_argument], on lengths. *)
Lemma maybe_inject_class_argument_spec hint_tree func_obj :
  ast.argtypes (Function._maybe_inject_class_argument hint_tree func_obj)
  = if decide (Function.is_class_method func_obj = true
               ∧ Function.class_decorator_type func_obj ≠ Some STATICMETHOD
               ∧ (length (ast.argtypes hint_tree)
                  < length (Function.args func_obj) - 1)%nat)
    then ast.Ellipsis :: ast.argtypes hint_tree
    else ast.argtypes hint_tree.
Proof.
  unfold Function._maybe_inject_class_argument.
  case_decide as Hinject.
  - destruct Hinject as (Hmethod & Hstatic & Hlen). rewrite Hmethod. simpl.
    rewrite bool_decide_eq_true_2 by done.
    destruct (Z.ltb_spec (Z.of_nat (length (ast.argtypes hint_tree)))
                (Z.of_nat (length (Function.args func_obj)) - 1)); [done|lia].
  - destruct (Function.is_class_method func_obj); simpl; [|done].
    case_bool_decide as Hstatic; [|done].
    destruct (Z.ltb_spec (Z.of_nat (length (ast.argtypes hint_tree)))
                (Z.of_nat (length (Function.args func_obj)) - 1)); [|done].
    exfalso. apply Hinject. split_and!; [done|done|lia].
Qed.

(** C5. The receiver injection prepends one [Ellipsis] to the parsed
    argument types exactly when the function is a method, is not a
    [staticmethod], and the comment has fewer argument types than [args]
    has entries minus one; otherwise the comment is left as parsed. Hence
    for such a method a comment that hints every argument but the receiver
    leaves the receiver as it was and marks every other argument and the
    return slot. On the method [bar(self, a)] the comment [(int) -> int]
    builds the same annotation flags as the inline form
    [bar(self, a: int) -> int]: [self] missed, [a] and the return slot
    annotated, and under every configuration both forms yield the same
    errors, the single ANN101 at [self]. *)
Theorem type_comment_aligns_with_inline :
  (∀ hint_tree func_obj,
      ast.argtypes (Function._maybe_inject_class_argument hint_tree func_obj)
      = if decide (Function.is_class_method func_obj = true
                   ∧ Function.class_decorator_type func_obj ≠ Some STATICMETHOD
                   ∧ (length (ast.argtypes hint_tree)
                      < length (Function.args func_obj) - 1)%nat)
        then ast.Ellipsis :: ast.argtypes hint_tree
        else ast.argtypes hint_tree)
  ∧ (∀ func_obj receiver params return_arg slots,
      Function.is_class_method func_obj = true →
      Function.class_decorator_type func_obj ≠ Some STATICMETHOD →
      Function.args func_obj = receiver :: params ++ [return_arg] →
      length slots = length params →
      Forall (λ slot, ast.isinstance_Ellipsis slot = false) slots →
      ∃ func_obj',
        Function.try_type_comment func_obj (ast.mk_FunctionType slots)
        = Some func_obj'
        ∧ Function.args func_obj'
          = receiver :: (Function.mark_type_comment <$> params)
            ++ [Function.mark_type_comment return_arg])
  ∧ Function.from_function_node samples.bar_comment_node (2, 20) true true false
    = Some samples.bar_comment
  ∧ Function.from_function_node samples.bar_inline_node (2, 32) true true false
    = Some samples.bar_inline
  ∧ Argument.has_type_annotation <$> Function.args samples.bar_comment
    = [false; true; true]
  ∧ Argument.has_type_annotation <$> Function.args samples.bar_inline
    = [false; true; true]
  ∧ (∀ self,
      run self [samples.bar_comment] = [(2, 12, "self", ANN101)]
      ∧ run self [samples.bar_inline] = [(2, 12, "self", ANN101)]).
Proof.
  split_and!; try reflexivity.
  - apply maybe_inject_class_argument_spec.
  - intros func_obj receiver params return_arg slots
      Hmethod Hstatic Hargs Hlen Hslots.
    rewrite try_type_comment_aligned by (by rewrite Hargs).
    eexists. split; [done|]. simpl.
    rewrite maybe_inject_class_argument_spec, decide_True.
    + rewrite Hargs. simpl.
      rewrite aligned_all_hinted by done.
      rewrite Nat.sub_0_r, length_app, Nat.add_1_r.
      match goal with
      | |- alter ?f (S ?n) (?x :: ?l) = _ =>
          change (alter f (S n) (x :: l)) with (x :: alter f n l)
      end.
      f_equal.
      replace (length params)
        with (length (Function.mark_type_comment <$> params) + 0)%nat
        by (rewrite length_fmap; lia).
      by rewrite alter_app_r.
    + split_and!; [done|done|]. rewrite Hargs. simpl.
      rewrite length_app. simpl. lia.
  - by intros [].
Qed.

(** A witness of [type_comment_aligns_with_inline]: [bar] and its
    comment [(int) -> int]. *)
Lemma type_comment_aligns_with_inline_witness :
  Function.is_class_method samples.bar_before_comment = true
  ∧ Function.class_decorator_type samples.bar_before_comment
    ≠ Some STATICMETHOD
  ∧ ∃ func_obj',
      Function.try_type_comment samples.bar_before_comment
        (ast.mk_FunctionType [ast.Name "int"]) = Some func_obj'
      ∧ Function.args func_obj' = Function.args samples.bar_comment.
Proof.
  assert (Hstatic :
            Function.class_decorator_type samples.bar_before_comment
            ≠ Some STATICMETHOD) by done.
  assert (Hslots :
            Forall (λ slot, ast.isinstance_Ellipsis slot = false)
                   [ast.Name "int"]) by (by repeat constructor).
  split_and!; [done|done|].
  exact (proj1 (proj2 type_comment_aligns_with_inline)
           samples.bar_before_comment
           (Argument.mk "self" 2 12 ARGS false false false)
           [Argument.mk "a" 2 18 ARGS false false false]
           (Argument.mk "return" 2 20 RETURN false false false)
           [ast.Name "int"]
           eq_refl Hstatic eq_refl eq_refl Hslots).
Defined.

(** ** The emission loop *)

Section filters.

Context {A : Type} (P : A → Prop) `{!∀ x, Decision (P x)}.

Lemma filter_Forall_id (l : list A) : Forall P l → filter P l = l.
Proof.
  induction 1 as [|x l Hx _ IH]; [done|].
  by rewrite filter_cons_True, IH.
Qed.

Lemma filter_Forall_nil (l : list A) : Forall (λ x, ¬ P x) l → filter P l = [].
Proof.
  induction 1 as [|x l Hx _ IH]; [done|].
  by rewrite filter_cons_False.
Qed.

End filters.

(** The indexed list the loop runs over is [get_missed_annotations] with
    the place of each argument in [args] attached. *)
Lemma missed_annotations_indexed_snd (function : Function.t) :
  snd <$> missed_annotations_indexed function
  = Function.get_missed_annotations function.
Proof.
  unfold missed_annotations_indexed, Function.get_missed_annotations.
  generalize (Function.args function). intros l.
  change (imap pair l) with (imap (pair ∘ plus 0%nat) l).
  generalize 0%nat. induction l as [|arg l IH]; intros n; [done|].
  simpl. rewrite !filter_cons. simpl.
  destruct (negb (Argument.has_type_annotation arg)) eqn:Hflag.
  - rewrite !decide_True by done. simpl. f_equal.
    rewrite <- (IH (S n)). do 2 f_equal. apply imap_ext. intros. simpl.
    f_equal. lia.
  - rewrite !decide_False by done.
    rewrite <- (IH (S n)). do 2 f_equal. apply imap_ext. intros. simpl.
    f_equal. lia.
Qed.

Lemma missed_annotations_indexed_lookup (function : Function.t) index arg :
  (index, arg) ∈ missed_annotations_indexed function
  ↔ Function.args function !! index = Some arg
    ∧ Argument.has_type_annotation arg = false.
Proof.
  unfold missed_annotations_indexed.
  rewrite list_elem_of_filter, elem_of_lookup_imap. simpl.
  rewrite negb_true_iff. split.
  - intros [Hflag (i & y & Heq & Hlookup)]. by simplify_eq.
  - intros [Hlookup Hflag]. split; [done|]. by exists index, arg.
Qed.

(** The sentinel loop, started with the sentinels not both set, yields
    its one error exactly when both are set by the end. *)
Lemma mixed_style_loop_spec function has_type_comment has_3107_annotation annotated :
  has_type_comment && has_3107_annotation = false →
  mixed_style_loop function has_type_comment has_3107_annotation annotated
  = if (has_type_comment || existsb Argument.has_type_comment annotated)
       && (has_3107_annotation || existsb Argument.has_3107_annotation annotated)
    then [to_flake8 (from_function ANN301 function)]
    else [].
Proof.
  revert has_type_comment has_3107_annotation.
  induction annotated as [|arg annotated IH];
    intros has_type_comment has_3107_annotation Hstart; simpl.
  - by rewrite !orb_false_r, Hstart.
  - destruct (Argument.has_type_comment arg), (Argument.has_3107_annotation arg),
      has_type_comment, has_3107_annotation;
      simpl in *; try done; rewrite ?IH by done; simpl;
      by rewrite ?orb_true_r, ?andb_true_r, ?orb_false_r.
Qed.

Lemma mixed_style_errors_spec (function : Function.t) :
  mixed_style_errors function
  = if (Function.has_type_comment function
        || existsb Argument.has_type_comment
             (Function.get_annotated_arguments function))
       && existsb Argument.has_3107_annotation
            (Function.get_annotated_arguments function)
    then [to_flake8 (from_function ANN301 function)]
    else [].
Proof.
  unfold mixed_style_errors. rewrite mixed_style_loop_spec.
  - by destruct (Function.has_type_comment function).
  - apply andb_false_r.
Qed.

Lemma classify_error_code (function : Function.t) index arg :
  error_codes.code (classify_error function index arg) ≠ ANN301.
Proof.
  unfold classify_error, _return_error_classifier, _argument_error_classifier.
  simpl. repeat case_match; done.
Qed.

Lemma missing_annotation_errors_code (self : TypeHintChecker) function :
  Forall (λ d, fe_code d ≠ ANN301) (missing_annotation_errors self function).
Proof.
  unfold missing_annotation_errors. apply Forall_bind, Forall_forall.
  intros [index arg] _. unfold missing_annotation_error. simpl.
  repeat case_match; repeat constructor; apply classify_error_code.
Qed.

Lemma mixed_style_errors_code (function : Function.t) :
  Forall (λ d, fe_code d = ANN301) (mixed_style_errors function).
Proof.
  rewrite mixed_style_errors_spec. case_match; by repeat constructor.
Qed.

Lemma filter_mixed_style_errors (function : Function.t) :
  filter (λ d, fe_code d = ANN301) (mixed_style_errors function)
  = mixed_style_errors function
  ∧ filter (λ d, fe_code d ≠ ANN301) (mixed_style_errors function) = [].
Proof.
  split.
  - apply filter_Forall_id, mixed_style_errors_code.
  - apply filter_Forall_nil.
    eapply Forall_impl; [apply mixed_style_errors_code|]. by intros d -> ?.
Qed.

Lemma filter_missing_annotation_errors (self : TypeHintChecker) function :
  filter (λ d, fe_code d = ANN301) (missing_annotation_errors self function) = []
  ∧ filter (λ d, fe_code d ≠ ANN301) (missing_annotation_errors self function)
    = missing_annotation_errors self function.
Proof.
  split.
  - apply filter_Forall_nil, missing_annotation_errors_code.
  - apply filter_Forall_id, missing_annotation_errors_code.
Qed.

(** C6. For a function that reaches the check for mixed styles, ANN301
    is among its errors exactly once if, among its annotated arguments, one
    has an inline annotation and either one has a type comment or the
    function itself has one, and not at all otherwise. Whether or not it is
    yielded, the remaining errors are those of the overload check followed
    by the loop over the missed annotations, and the overload name is
    updated in the same way. *)
Theorem mixed_style_reported_once (self : TypeHintChecker)
    (last : option string) (function : Function.t) :
  skipped_entirely self function = false →
  length (filter (λ d, fe_code d = ANN301) (run_function self last function).1)
  = (if (Function.has_type_comment function
         || existsb Argument.has_type_comment
              (Function.get_annotated_arguments function))
        && existsb Argument.has_3107_annotation
             (Function.get_annotated_arguments function)
     then 1 else 0)%nat
  ∧ filter (λ d, fe_code d ≠ ANN301) (run_function self last function).1
    = (if closes_overload last function then []
       else missing_annotation_errors self function)
  ∧ (run_function self last function).2
    = (if closes_overload last function then last
       else if Function.has_decorator function (overload_decorators self)
            then Some (Function.name function)
            else last).
Proof.
  intros Hreached. unfold run_function. rewrite Hreached.
  destruct (filter_mixed_style_errors function) as [Hmixed Hmixed'].
  destruct (filter_missing_annotation_errors self function)
    as [Hmissing Hmissing'].
  assert (Hcount :
    length (mixed_style_errors function)
    = (if (Function.has_type_comment function
           || existsb Argument.has_type_comment
                (Function.get_annotated_arguments function))
          && existsb Argument.has_3107_annotation
               (Function.get_annotated_arguments function)
       then 1 else 0)%nat).
  { rewrite mixed_style_errors_spec. by case_match. }
  destruct (closes_overload last function); simpl.
  - by rewrite Hmixed, Hmixed'.
  - by rewrite !filter_app, Hmixed, Hmixed', Hmissing, Hmissing', app_nil_r.
Qed.

(** A witness of [mixed_style_reported_once]: [qux] mixes an inline
    annotation with a type comment and has two missed annotations. *)
Lemma mixed_style_reported_once_witness :
  skipped_entirely default_options samples.qux = false
  ∧ length (filter (λ d, fe_code d = ANN301)
              (run_function default_options None samples.qux).1) = 1%nat
  ∧ filter (λ d, fe_code d ≠ ANN301)
      (run_function default_options None samples.qux).1
    = [(4, 4, "c", ANN001); (5, 1, "return", ANN201)].
Proof.
  assert (Hreached : skipped_entirely default_options samples.qux = false)
    by reflexivity.
  destruct (mixed_style_reported_once default_options None samples.qux Hreached)
    as (Hcount & Hrest & _).
  split_and!; [done| |].
  - rewrite Hcount. reflexivity.
  - rewrite Hrest. reflexivity.
Defined.

(** C4, as the code has it. The overload name starts as [None] and,
    once set, is never reset to [None]. When it equals the name of the
    function at hand, the function yields no error for its missed
    annotations (at most the ANN301 of the mixed-style check) and the name
    is kept. A function the loop skips as dynamically typed or dispatch
    decorated yields nothing and leaves the name as it is, overload
    decorated or not. Otherwise a function whose first decorator matches the
    overload set becomes the stored name, and its own missed annotations are
    still run through the per-argument loop. *)
Theorem overload_name_state (self : TypeHintChecker) (last : option string)
    (function : Function.t) :
  (∀ function_definitions,
      run self function_definitions = run_loop self None function_definitions)
  ∧ (is_Some last → is_Some (run_function self last function).2)
  ∧ (last = Some (Function.name function) →
     (run_function self last function).1
     = (if skipped_entirely self function then []
        else mixed_style_errors function)
     ∧ filter (λ d, fe_code d ≠ ANN301) (run_function self last function).1 = []
     ∧ (run_function self last function).2 = last)
  ∧ (skipped_entirely self function = true →
     run_function self last function = ([], last))
  ∧ (skipped_entirely self function = false →
     last ≠ Some (Function.name function) →
     Function.has_decorator function (overload_decorators self) = true →
     (run_function self last function).1
     = mixed_style_errors function ++ missing_annotation_errors self function
     ∧ (run_function self last function).2 = Some (Function.name function)).
Proof.
  split_and!.
  - done.
  - intros Hlast. unfold run_function. repeat case_match; done.
  - intros ->. unfold run_function, closes_overload.
    rewrite bool_decide_eq_true_2 by done.
    destruct (skipped_entirely self function); simpl; [done|].
    split_and!; [done| |done]. apply filter_mixed_style_errors.
  - intros Hskipped. unfold run_function. by rewrite Hskipped.
  - intros Hreached Hlast Hoverload. unfold run_function, closes_overload.
    by rewrite Hreached, bool_decide_eq_false_2, Hoverload.
Qed.

(** The claim C4 as the specification words it fails on [foo_1] under
    [--allow-untyped-defs]: the definition matches the overload set and no
    name is stored, yet it is skipped as dynamically typed, so that the
    name stays [None], its missed annotations yield nothing, and the next
    definition of [foo] is reported. *)
Lemma overload_name_not_stored_when_skipped :
  Function.has_decorator samples.foo_1
    (overload_decorators samples.untyped_options) = true
  ∧ Function.is_dynamically_typed samples.foo_1 = true
  ∧ run_function samples.untyped_options None samples.foo_1 = ([], None)
  ∧ missing_annotation_errors samples.untyped_options samples.foo_1
    = [(2, 8, "a", ANN001); (2, 10, "return", ANN201)]
  ∧ run samples.untyped_options [samples.foo_1; samples.foo_closing]
    = [(3, 15, "return", ANN201)]
  ∧ run default_options [samples.foo_1; samples.foo_closing]
    = [(2, 8, "a", ANN001); (2, 10, "return", ANN201)].
Proof. split_and!; vm_compute; reflexivity. Qed.

(** A witness of [overload_name_state]: the first [foo] of the overload
    series, met with no name stored. *)
Lemma overload_name_state_witness :
  skipped_entirely default_options samples.foo_1 = false
  ∧ None ≠ Some (Function.name samples.foo_1)
  ∧ Function.has_decorator samples.foo_1 (overload_decorators default_options)
    = true
  ∧ (run_function default_options None samples.foo_1).1
    = mixed_style_errors samples.foo_1
      ++ missing_annotation_errors default_options samples.foo_1
  ∧ (run_function default_options None samples.foo_1).2
    = Some (Function.name samples.foo_1).
Proof.
  assert (Hreached : skipped_entirely default_options samples.foo_1 = false)
    by (vm_compute; reflexivity).
  assert (Hlast : None ≠ Some (Function.name samples.foo_1)) by done.
  assert (Hoverload :
            Function.has_decorator samples.foo_1
              (overload_decorators default_options) = true)
    by (vm_compute; reflexivity).
  split_and!; [done|done|done| |];
    apply (proj2 (proj2 (proj2 (proj2
             (overload_name_state default_options None samples.foo_1))))
             Hreached Hlast Hoverload).
Defined.

Lemma fe_argname_classify_error (function : Function.t) index arg :
  fe_argname (to_flake8 (classify_error function index arg))
  = Argument.argname arg.
Proof. done. Qed.

Lemma missing_annotation_error_not_return self function index arg :
  String.eqb (Argument.argname arg) "return" = false →
  missing_annotation_error self function index arg
  = if String.eqb (Argument.argname arg) "_" && suppress_dummy_args self
    then [] else [to_flake8 (classify_error function index arg)].
Proof. intros Hname. unfold missing_annotation_error. by rewrite Hname. Qed.

Lemma filter_bind {A B : Type} (P : B → Prop) `{!∀ x, Decision (P x)}
    (f : A → list B) (l : list A) :
  filter P (l ≫= f) = l ≫= (λ x, filter P (f x)).
Proof.
  induction l as [|x l IH]; [done|].
  by rewrite !bind_cons, filter_app, IH.
Qed.

(** Outside the return slot the per-argument loop does not read
    [mypy_init_return]. *)
Lemma missing_annotation_errors_mypy_init_return self function :
  filter (λ d, fe_argname d ≠ "return") (missing_annotation_errors self function)
  = filter (λ d, fe_argname d ≠ "return")
      (missing_annotation_errors (set_mypy_init_return false self) function).
Proof.
  unfold missing_annotation_errors. rewrite !filter_bind.
  apply Forall_bind_ext, Forall_forall. intros [index arg] _. simpl.
  destruct (String.eqb (Argument.argname arg) "return") eqn:Hreturn.
  - apply String.eqb_eq in Hreturn. unfold missing_annotation_error.
    repeat case_match; try done;
      rewrite ?filter_cons_False, ?filter_nil; try done;
      rewrite fe_argname_classify_error; by intros ?.
  - by rewrite !missing_annotation_error_not_return.
Qed.

Lemma missing_annotation_errors_not_method self function :
  Function.is_class_method function = false →
  missing_annotation_errors self function
  = missing_annotation_errors (set_mypy_init_return false self) function.
Proof.
  intros Hmethod. unfold missing_annotation_errors.
  apply Forall_bind_ext, Forall_forall. intros [index arg] _.
  unfold missing_annotation_error. simpl. rewrite Hmethod. simpl.
  by rewrite !andb_false_r.
Qed.

(** C7. With [mypy_init_return] set, a method named [__init__] with at
    least one annotated argument yields no error bound to the return slot,
    whatever the overload name in force. The option touches the return slot
    only: for every function the errors bound to other places, and the
    overload name, are those obtained with the option off, and a missed
    argument that is not the return slot, and not a dummy argument
    suppressed by its own option, has its classified error among those of
    the per-argument loop. It touches methods only: a function that is not
    a method yields what it yields with the option off. *)
Theorem mypy_init_return_suppression (self : TypeHintChecker)
    (function : Function.t) :
  (mypy_init_return self = true →
   Function.is_class_method function = true →
   Function.name function = "__init__" →
   Function.get_annotated_arguments function ≠ [] →
   ∀ last,
     Forall (λ d, fe_argname d ≠ "return") (run_function self last function).1)
  ∧ (∀ last,
      filter (λ d, fe_argname d ≠ "return") (run_function self last function).1
      = filter (λ d, fe_argname d ≠ "return")
          (run_function (set_mypy_init_return false self) last function).1
      ∧ (run_function self last function).2
        = (run_function (set_mypy_init_return false self) last function).2)
  ∧ (∀ index arg,
      Function.args function !! index = Some arg →
      Argument.has_type_annotation arg = false →
      Argument.argname arg ≠ "return" →
      ¬ (Argument.argname arg = "_" ∧ suppress_dummy_args self = true) →
      to_flake8 (classify_error function index arg)
      ∈ missing_annotation_errors self function)
  ∧ (Function.is_class_method function = false →
     ∀ last,
       run_function self last function
       = run_function (set_mypy_init_return false self) last function).
Proof.
  split_and!.
  - intros Hoption Hmethod Hname Hannotated last.
    assert (Hmixed :
      Forall (λ d, fe_argname d ≠ "return") (mixed_style_errors function)).
    { rewrite mixed_style_errors_spec. case_match; repeat constructor.
      unfold fe_argname. simpl. by rewrite Hname. }
    assert (Hmissing :
      Forall (λ d, fe_argname d ≠ "return")
             (missing_annotation_errors self function)).
    { unfold missing_annotation_errors. apply Forall_bind, Forall_forall.
      intros [index arg] _. simpl.
      destruct (String.eqb (Argument.argname arg) "return") eqn:Hreturn.
      - unfold missing_annotation_error.
        rewrite Hreturn, Hoption, Hmethod, Hname.
        rewrite (bool_decide_eq_false_2 _ Hannotated). simpl.
        by destruct (suppress_none_returning self && _).
      - rewrite missing_annotation_error_not_return by done.
        case_match; repeat constructor.
        rewrite fe_argname_classify_error. by apply String.eqb_neq. }
    unfold run_function. repeat case_match; simpl; try done.
    all: by apply Forall_app.
  - intros last. unfold run_function.
    change (skipped_entirely (set_mypy_init_return false self) function)
      with (skipped_entirely self function).
    change (overload_decorators (set_mypy_init_return false self))
      with (overload_decorators self).
    destruct (skipped_entirely self function); [done|].
    destruct (closes_overload last function); [done|]. simpl.
    by rewrite !filter_app, missing_annotation_errors_mypy_init_return.
  - intros index arg Hlookup Hmissed Hreturn Hdummy.
    unfold missing_annotation_errors. apply list_elem_of_bind.
    exists (index, arg). split; [|by apply missed_annotations_indexed_lookup].
    simpl. rewrite missing_annotation_error_not_return
      by by apply String.eqb_neq.
    destruct (String.eqb (Argument.argname arg) "_") eqn:Hname,
      (suppress_dummy_args self) eqn:Hoption; simpl; try apply list_elem_of_here.
    destruct Hdummy. split; [|done]. by apply String.eqb_eq.
  - intros Hmethod last. unfold run_function.
    change (skipped_entirely (set_mypy_init_return false self) function)
      with (skipped_entirely self function).
    change (overload_decorators (set_mypy_init_return false self))
      with (overload_decorators self).
    by rewrite <- missing_annotation_errors_not_method.
Qed.

(** A witness of [mypy_init_return_suppression]: [__init__(self, a: int)]
    under [--mypy-init-return] yields the error of [self] alone. *)
Lemma mypy_init_return_suppression_witness :
  mypy_init_return samples.mypy_options = true
  ∧ Function.is_class_method samples.init_method = true
  ∧ Function.name samples.init_method = "__init__"
  ∧ Function.get_annotated_arguments samples.init_method ≠ []
  ∧ Forall (λ d, fe_argname d ≠ "return")
      (run_function samples.mypy_options None samples.init_method).1
  ∧ (run_function samples.mypy_options None samples.init_method).1
    = [(2, 17, "self", ANN101)]
  ∧ (run_function default_options None samples.init_method).1
    = [(2, 17, "self", ANN101); (2, 30, "return", ANN204)].
Proof.
  assert (Hannotated :
            Function.get_annotated_arguments samples.init_method ≠ [])
    by (vm_compute; discriminate).
  split_and!; [done|done|done|done| |reflexivity|reflexivity].
  exact (proj1 (mypy_init_return_suppression samples.mypy_options
                  samples.init_method)
           eq_refl eq_refl eq_refl Hannotated None).
Defined.

(** *** Overload series *)

Lemma run_function_closing (self : TypeHintChecker) (function : Function.t) :
  (run_function self (Some (Function.name function)) function).2
  = Some (Function.name function)
  ∧ filter (λ d, fe_code d ≠ ANN301)
      (run_function self (Some (Function.name function)) function).1 = [].
Proof.
  unfold run_function, closes_overload. rewrite bool_decide_eq_true_2 by done.
  destruct (skipped_entirely self function); simpl; [done|].
  split; [done|]. apply filter_mixed_style_errors.
Qed.

Lemma run_function_opening (self : TypeHintChecker) last (function : Function.t) :
  skipped_entirely self function = false →
  Function.has_decorator function (overload_decorators self) = true →
  (run_function self last function).2 = Some (Function.name function)
  ∧ (last ≠ Some (Function.name function) →
     filter (λ d, fe_code d ≠ ANN301) (run_function self last function).1
     = missing_annotation_errors self function).
Proof.
  intros Hreached Hoverload. unfold run_function, closes_overload.
  rewrite Hreached, Hoverload. case_bool_decide as Hlast; simpl; [done|].
  split; [done|]. intros _. rewrite filter_app.
  destruct (filter_mixed_style_errors function) as [_ ->].
  by destruct (filter_missing_annotation_errors self function) as [_ ->].
Qed.

(** C3, as the code has it. Take three consecutive definitions of one
    name, the first two matching the overload set by their first decorator
    and the third not, the first of them not skipped as dynamically typed or
    dispatch decorated. Then the name is stored at the first definition and
    kept; the second and the third definition yield no error for a missed
    annotation; and the first yields the errors of its own missed
    annotations, unless the stored name was its name already. *)
Theorem overload_series_collapse (self : TypeHintChecker) (last : option string)
    (f1 f2 f3 : Function.t) (rest : list Function.t) :
  Function.name f2 = Function.name f1 →
  Function.name f3 = Function.name f1 →
  Function.has_decorator f1 (overload_decorators self) = true →
  Function.has_decorator f2 (overload_decorators self) = true →
  Function.has_decorator f3 (overload_decorators self) = false →
  skipped_entirely self f1 = false →
  run_loop self last (f1 :: f2 :: f3 :: rest)
  = (run_function self last f1).1
    ++ (run_function self (Some (Function.name f1)) f2).1
    ++ (run_function self (Some (Function.name f1)) f3).1
    ++ run_loop self (Some (Function.name f1)) rest
  ∧ filter (λ d, fe_code d ≠ ANN301)
      (run_function self (Some (Function.name f1)) f2).1 = []
  ∧ filter (λ d, fe_code d ≠ ANN301)
      (run_function self (Some (Function.name f1)) f3).1 = []
  ∧ (last ≠ Some (Function.name f1) →
     filter (λ d, fe_code d ≠ ANN301) (run_function self last f1).1
     = missing_annotation_errors self f1).
Proof.
  intros Hname2 Hname3 Hoverload1 _ _ Hreached.
  destruct (run_function_opening self last f1 Hreached Hoverload1)
    as [Hstate1 Hfirst].
  destruct (run_function_closing self f2) as [Hstate2 Hsecond].
  destruct (run_function_closing self f3) as [Hstate3 Hthird].
  rewrite Hname2 in Hstate2, Hsecond. rewrite Hname3 in Hstate3, Hthird.
  split_and!; try done.
  simpl. by rewrite Hstate1, Hstate2, Hstate3.
Qed.

(** The claim C3 as the specification words it fails on the series
    [foo_1], [foo_2], [foo_3] under the default options: the first,
    overload-decorated definition yields the errors of its two missed
    annotations, and the closing third definition, as little annotated,
    yields none. *)
Lemma overload_series_first_definition_reported :
  Function.from_function_node (samples.foo_node 2 [ast.Name "overload"])
    (2, 10) true false false = Some samples.foo_1
  ∧ Function.from_function_node (samples.foo_node 4 [ast.Name "overload"])
      (4, 10) true false false = Some samples.foo_2
  ∧ Function.from_function_node (samples.foo_node 5 [])
      (5, 10) true false false = Some samples.foo_3
  ∧ Function.has_decorator samples.foo_1 (overload_decorators default_options)
    = true
  ∧ Function.has_decorator samples.foo_2 (overload_decorators default_options)
    = true
  ∧ Function.has_decorator samples.foo_3 (overload_decorators default_options)
    = false
  ∧ run_function default_options None samples.foo_1
    = ([(2, 8, "a", ANN001); (2, 10, "return", ANN201)], Some "foo")
  ∧ run_function default_options (Some "foo") samples.foo_2 = ([], Some "foo")
  ∧ run_function default_options (Some "foo") samples.foo_3 = ([], Some "foo")
  ∧ Function.get_missed_annotations samples.foo_3 = Function.args samples.foo_3
  ∧ run default_options [samples.foo_1; samples.foo_2; samples.foo_3]
    = [(2, 8, "a", ANN001); (2, 10, "return", ANN201)].
Proof. split_and!; vm_compute; reflexivity. Qed.

(** A witness of [overload_series_collapse]: the same series. *)
Lemma overload_series_collapse_witness :
  Function.name samples.foo_2 = Function.name samples.foo_1
  ∧ Function.name samples.foo_3 = Function.name samples.foo_1
  ∧ Function.has_decorator samples.foo_1 (overload_decorators default_options)
    = true
  ∧ Function.has_decorator samples.foo_2 (overload_decorators default_options)
    = true
  ∧ Function.has_decorator samples.foo_3 (overload_decorators default_options)
    = false
  ∧ skipped_entirely default_options samples.foo_1 = false
  ∧ filter (λ d, fe_code d ≠ ANN301)
      (run_function default_options (Some (Function.name samples.foo_1))
         samples.foo_3).1 = []
  ∧ filter (λ d, fe_code d ≠ ANN301)
      (run_function default_options None samples.foo_1).1
    = missing_annotation_errors default_options samples.foo_1.
Proof.
  assert (Hoverload1 :
            Function.has_decorator samples.foo_1
              (overload_decorators default_options) = true)
    by (vm_compute; reflexivity).
  assert (Hoverload2 :
            Function.has_decorator samples.foo_2
              (overload_decorators default_options) = true)
    by (vm_compute; reflexivity).
  assert (Hoverload3 :
            Function.has_decorator samples.foo_3
              (overload_decorators default_options) = false)
    by (vm_compute; reflexivity).
  assert (Hreached : skipped_entirely default_options samples.foo_1 = false)
    by (vm_compute; reflexivity).
  destruct (overload_series_collapse default_options None
              samples.foo_1 samples.foo_2 samples.foo_3 []
              eq_refl eq_refl Hoverload1 Hoverload2 Hoverload3 Hreached)
    as (_ & _ & Hthird & Hfirst).
  split_and!; first [done | by apply Hfirst].
Defined.

(** * Further properties of the model and of the checker *)

(** ** Decorator matching *)

Lemma decorator_checker_name (decorator : ast.expr) (check_decorators : gset string) :
  Function._decorator_checker decorator check_decorators = true
  ↔ ∃ name, decorator_name decorator = Some name ∧ name ∈ check_decorators.
Proof.
  induction decorator as [id|value _ attr|func IH| |]; simpl;
    rewrite ?bool_decide_eq_true; try exact IH.
  - split; [by exists id|]. by intros (name & [= ->] & ?).
  - split; [by exists attr|]. by intros (name & [= ->] & ?).
  - split; [done|]. by intros (name & ? & _).
  - split; [done|]. by intros (name & ? & _).
Qed.

(** X1. [has_decorator] answers for the first decorator alone, and by
    its name: the identifier of a bare name, the last attribute of a dotted
    one whatever precedes it, and through any number of calls the name of
    what is called. With no decorator, or a first decorator of another
    shape, the answer is [False] whatever the later decorators are. *)
Theorem has_decorator_first_name (self : Function.t) (check_decorators : gset string) :
  Function.has_decorator self check_decorators = true
  ↔ ∃ decorator name,
      head (Function.decorator_list self) = Some decorator
      ∧ decorator_name decorator = Some name
      ∧ name ∈ check_decorators.
Proof.
  unfold Function.has_decorator.
  destruct (Function.decorator_list self) as [|decorator decorators]; simpl.
  - split; [done|]. by intros (? & ? & ? & _).
  - rewrite decorator_checker_name. split.
    + intros (name & ? & ?). by exists decorator, name.
    + intros (? & name & [= <-] & ? & ?). by exists name.
Qed.

Lemma decorator_checker_union decorator (names names' : gset string) :
  Function._decorator_checker decorator (names ∪ names')
  = Function._decorator_checker decorator names
    || Function._decorator_checker decorator names'.
Proof.
  apply eq_true_iff_eq. rewrite orb_true_iff, !decorator_checker_name. split.
  - intros (name & ? & [?|?]%elem_of_union); [left|right]; by exists name.
  - intros [(name & ? & ?)|(name & ? & ?)]; exists name;
      (split; [done|]); apply elem_of_union; [by left|by right].
Qed.

(** X2. Matching against a union of name sets is matching against
    either, and nothing matches the empty set: the answer depends on the
    configured names only through membership of the one name consulted. *)
Theorem has_decorator_union (self : Function.t) (names names' : gset string) :
  Function.has_decorator self (names ∪ names')
  = Function.has_decorator self names || Function.has_decorator self names'
  ∧ Function.has_decorator self ∅ = false.
Proof.
  unfold Function.has_decorator.
  destruct (Function.decorator_list self) as [|decorator decorators]; [done|].
  split; [apply decorator_checker_union|].
  apply not_true_is_false. rewrite decorator_checker_name.
  intros (name & _ & Hname). by apply not_elem_of_empty in Hname.
Qed.

(** ** Function types *)

Lemma startswith_spec (s p : string) :
  startswith s p = true ↔ ∃ rest, s = p +:+ rest.
Proof.
  unfold startswith. revert s. induction p as [|c p IH]; intros s.
  - split; [by exists s|]. by destruct s.
  - destruct s as [|c' s]; simpl.
    + split; [done|]. by intros (rest & ?).
    + destruct (Ascii.ascii_dec c c') as [<-|Hne].
      * rewrite IH. split.
        -- intros (rest & ->). by exists rest.
        -- intros (rest & [= ->]). by exists rest.
      * split; [done|]. intros (rest & [= ? _]). done.
Qed.

Lemma string_length_append (s s' : string) :
  String.length (s +:+ s') = (String.length s + String.length s')%nat.
Proof. induction s as [|c s IH]; simpl; by rewrite ?IH. Qed.

Lemma substring_all (s : string) : String.substring 0 (String.length s) s = s.
Proof. induction s as [|c s IH]; simpl; by rewrite ?IH. Qed.

Lemma substring_append_r (s s' : string) :
  String.substring (String.length s) (String.length s') (s +:+ s') = s'.
Proof. induction s as [|c s IH]; simpl; [apply substring_all|done]. Qed.

Lemma substring_split (s : string) (i : nat) :
  (i ≤ String.length s)%nat →
  s = String.substring 0 i s +:+ String.substring i (String.length s - i) s.
Proof.
  revert i. induction s as [|c s IH]; intros i Hi; simpl in *.
  - by destruct i.
  - destruct i as [|i]; simpl.
    + by rewrite substring_all.
    + change (String c s
              = String c (String.substring 0 i s
                          +:+ String.substring i (String.length s - i) s)).
      f_equal. apply IH. lia.
Qed.

Lemma endswith_spec (s p : string) :
  endswith s p = true ↔ ∃ front, s = front +:+ p.
Proof.
  unfold endswith. split.
  - destruct (Nat.leb_spec (String.length p) (String.length s)) as [Hle|];
      [|done].
    intros Heq%String.eqb_eq.
    exists (String.substring 0 (String.length s - String.length p) s).
    etrans; [apply (substring_split s (String.length s - String.length p));
             lia|].
    f_equal.
    replace (String.length s - (String.length s - String.length p))%nat
      with (String.length p) by lia.
    exact Heq.
  - intros (front & ->). rewrite string_length_append.
    rewrite (proj2 (Nat.leb_le _ _)) by lia.
    replace (String.length front + String.length p - String.length p)%nat
      with (String.length front) by lia.
    rewrite substring_append_r. apply String.eqb_refl.
Qed.

(** X3. [get_function_type] by the shape of the name: SPECIAL when it
    both starts and ends with two underscores (the two may overlap, as in a
    name of two or three underscores), PRIVATE when it starts with two and
    does not end with two, PROTECTED when it starts with exactly one, and
    PUBLIC exactly when it does not start with an underscore. *)
Theorem get_function_type_by_underscores (function_name : string) :
  (Function.get_function_type function_name = SPECIAL
   ↔ (∃ rest, function_name = "__" +:+ rest)
     ∧ (∃ front, function_name = front +:+ "__"))
  ∧ (Function.get_function_type function_name = PRIVATE
     ↔ (∃ rest, function_name = "__" +:+ rest)
       ∧ ¬ (∃ front, function_name = front +:+ "__"))
  ∧ (Function.get_function_type function_name = PROTECTED
     ↔ (∃ rest, function_name = "_" +:+ rest)
       ∧ ¬ (∃ rest, function_name = "__" +:+ rest))
  ∧ (Function.get_function_type function_name = PUBLIC
     ↔ ¬ (∃ rest, function_name = "_" +:+ rest)).
Proof.
  unfold Function.get_function_type.
  rewrite <- !startswith_spec, <- !endswith_spec.
  assert (Hone : startswith function_name "__" = true →
                 startswith function_name "_" = true).
  { rewrite !startswith_spec. intros (rest & ->). by exists ("_" +:+ rest). }
  destruct (startswith function_name "__"), (endswith function_name "__"),
    (startswith function_name "_"); simpl;
    try (by specialize (Hone eq_refl));
    repeat split; try done; try (by intros [? ?]); by intros ?.
Qed.

(** ** What [from_function_node] builds *)

Lemma extend_args_spec (node : ast.FunctionDef) (new_function : Function.t) :
  Function.extend_args node new_function
  = Function.set_args
      (Function.args new_function
       ++ ((λ p, Argument.from_arg_node p.1 p.2) <$> node_args (ast.fargs node)))
      new_function.
Proof.
  unfold Function.extend_args, node_args. revert new_function.
  induction AST_ARG_TYPES as [|arg_type arg_types IH]; intros new_function.
  - simpl. rewrite app_nil_r. by destruct new_function.
  - simpl foldl. rewrite IH, bind_cons, fmap_app, <- list_fmap_compose.
    simpl. by rewrite app_assoc.
Qed.

(** [from_function_node] in closed form: the slots of the node, aligned
    with the type comment when there is one, with the return slot marked. *)
Lemma from_function_node_closed_form node def_end only_none_returns
    is_class_method is_nested :
  Function.from_function_node node def_end only_none_returns
    is_class_method is_nested
  = Some
      (Function.set_has_only_none_returns only_none_returns
         (match ast.type_comment node with
          | None => built_function node def_end is_class_method is_nested false
          | Some hint_tree =>
              let func_obj :=
                built_function node def_end is_class_method is_nested true in
              Function.set_is_return_annotated true
                (Function.set_args
                   (alter Function.mark_type_comment
                      (length (node_slots node def_end) - 1)%nat
                      (aligned (node_slots node def_end)
                         (ast.argtypes
                            (Function._maybe_inject_class_argument hint_tree
                               func_obj))))
                   func_obj)
          end)).
Proof.
  unfold Function.from_function_node. rewrite extend_args_spec. simpl.
  unfold built_function, node_slots, return_slot.
  destruct (ast.returns node), (ast.type_comment node) as [hint_tree|]; simpl;
    try done.
  all: rewrite try_type_comment_aligned by (simpl; by intros [_ ?]%app_eq_nil).
  all: done.
Qed.

Lemma marked_from_aligned (arguments : list Argument.t) slots :
  Forall2 marked_from arguments (aligned arguments slots).
Proof.
  revert slots. induction arguments as [|arg arguments IH]; intros slots;
    [constructor|].
  destruct slots as [|slot slots]; simpl.
  - constructor; [by left|]. specialize (IH []).
    by rewrite aligned_nil_r in IH.
  - constructor; [|apply IH].
    destruct (ast.isinstance_Ellipsis slot); [by left|by right].
Qed.

Lemma marked_from_alter (arguments : list Argument.t) i :
  Forall2 marked_from arguments (alter Function.mark_type_comment i arguments).
Proof.
  revert i. induction arguments as [|arg arguments IH]; intros i; [constructor|].
  destruct i as [|i]; simpl.
  - constructor; [by right|]. apply Forall2_same_length_lookup_2; [done|].
    intros ??? -> [= ->]. by left.
  - constructor; [by left|apply IH].
Qed.

Lemma marked_from_trans (a b c : Argument.t) :
  marked_from a b → marked_from b c → marked_from a c.
Proof. intros [->| ->] [->| ->]; [by left|by right|by right|by right]. Qed.

Lemma marked_from_comment_pass (arguments : list Argument.t) slots i :
  Forall2 marked_from arguments
    (alter Function.mark_type_comment i (aligned arguments slots)).
Proof.
  eapply Forall2_trans; [|apply marked_from_aligned|apply marked_from_alter].
  apply marked_from_trans.
Qed.


Lemma alter_last_marked (arguments : list Argument.t) :
  arguments ≠ [] →
  ∃ front arg,
    arguments = front ++ [arg]
    ∧ alter Function.mark_type_comment (length arguments - 1)%nat arguments
      = front ++ [Function.mark_type_comment arg].
Proof.
  intros Hne. destruct (exists_last Hne) as (front & arg & ->).
  exists front, arg. split; [done|].
  rewrite length_app. simpl.
  replace (length front + 1 - 1)%nat with (length front + 0)%nat by lia.
  by rewrite alter_app_r.
Qed.

Lemma from_arg_node_data (node : ast.arg) (annotation_type : AnnotationType) :
  place (Argument.from_arg_node node annotation_type)
  = (ast.arg_lineno node, ast.arg_col_offset node, ast.arg_arg node)
  ∧ Argument.annotation_type (Argument.from_arg_node node annotation_type)
    = annotation_type
  ∧ Argument.has_3107_annotation (Argument.from_arg_node node annotation_type)
    = (if ast.arg_annotation node is Some _ then true else false)
  ∧ Argument.has_type_annotation (Argument.from_arg_node node annotation_type)
    = node_arg_hinted node
  ∧ Argument.has_type_comment (Argument.from_arg_node node annotation_type)
    = truthy_str (ast.arg_type_comment node).
Proof.
  unfold Argument.from_arg_node, node_arg_hinted, place.
  by destruct (ast.arg_annotation node), (truthy_str (ast.arg_type_comment node)).
Qed.

Lemma node_slots_ne_nil node def_end : node_slots node def_end ≠ [].
Proof. unfold node_slots. by intros [_ ?]%app_eq_nil. Qed.


(** The function [from_function_node] returns, field by field. *)
Lemma from_function_node_result node def_end only_none_returns
    is_class_method is_nested :
  ∃ function,
    Function.from_function_node node def_end only_none_returns
      is_class_method is_nested = Some function
    ∧ Forall2 marked_from (node_slots node def_end) (Function.args function)
    ∧ (ast.type_comment node = None →
       Function.args function = node_slots node def_end
       ∧ Function.is_return_annotated function
         = (if ast.returns node is Some _ then true else false)
       ∧ Function.has_type_comment function = false)
    ∧ (is_Some (ast.type_comment node) →
       Function.is_return_annotated function = true
       ∧ Function.has_type_comment function = true
       ∧ ∃ front arg,
           Function.args function = front ++ [Function.mark_type_comment arg])
    ∧ Function.name function = ast.name node
    ∧ Function.lineno function = ast.lineno node
    ∧ Function.col_offset function = ast.col_offset node
    ∧ Function.function_type function
      = Function.get_function_type (ast.name node)
    ∧ Function.is_class_method function = is_class_method
    ∧ Function.class_decorator_type function
      = (if is_class_method then Function.get_class_decorator_type node
         else None)
    ∧ Function.has_only_none_returns function = only_none_returns
    ∧ Function.is_nested function = is_nested
    ∧ Function.decorator_list function = ast.decorator_list node.
Proof.
  rewrite from_function_node_closed_form. eexists. split; [done|].
  destruct (ast.type_comment node) as [hint_tree|]; simpl.
  - split_and!; try done.
    + apply marked_from_comment_pass.
    + intros _. split_and!; try done.
      destruct (alter_last_marked
                  (aligned (node_slots node def_end)
                     (ast.argtypes
                        (Function._maybe_inject_class_argument hint_tree
                           (built_function node def_end is_class_method
                              is_nested true)))))
        as (front & arg & Heq & Halter).
      * intros Hnil.
        pose proof (Forall2_length _ _ _
                      (marked_from_aligned (node_slots node def_end)
                         (ast.argtypes
                            (Function._maybe_inject_class_argument hint_tree
                               (built_function node def_end is_class_method
                                  is_nested true))))) as Hlen.
        rewrite Hnil in Hlen. by apply nil_length_inv, node_slots_ne_nil in Hlen.
      * exists front, arg.
        pose proof (Forall2_length _ _ _
                      (marked_from_aligned (node_slots node def_end)
                         (ast.argtypes
                            (Function._maybe_inject_class_argument hint_tree
                               (built_function node def_end is_class_method
                                  is_nested true))))) as Hlen.
        by rewrite Hlen, Halter.
  - split_and!; try done.
    apply Forall2_same_length_lookup_2; [done|]. intros ??? -> [= ->].
    by left.
Qed.

Lemma marked_from_elem_of arguments arguments' arg :
  Forall2 marked_from arguments arguments' →
  arg ∈ arguments →
  ∃ arg', arg' ∈ arguments' ∧ marked_from arg arg'.
Proof.
  intros Hmarked (i & Hi)%list_elem_of_lookup.
  destruct (Forall2_lookup_l _ _ _ _ _ Hmarked Hi) as (arg' & Hi' & Harg).
  exists arg'. split; [|done]. apply list_elem_of_lookup. by exists i.
Qed.

Lemma marked_from_flags (arg arg' : Argument.t) :
  marked_from arg arg' →
  (Argument.has_type_annotation arg = true →
   Argument.has_type_annotation arg' = true)
  ∧ (Argument.has_type_comment arg = true →
     Argument.has_type_comment arg' = true)
  ∧ Argument.has_3107_annotation arg' = Argument.has_3107_annotation arg.
Proof. by intros [->| ->]. Qed.

Lemma return_slot_data node def_end :
  place (return_slot node def_end) = (def_end.1, def_end.2, "return")
  ∧ Argument.annotation_type (return_slot node def_end) = RETURN
  ∧ Argument.has_type_annotation (return_slot node def_end)
    = (if ast.returns node is Some _ then true else false)
  ∧ Argument.has_3107_annotation (return_slot node def_end)
    = (if ast.returns node is Some _ then true else false)
  ∧ Argument.has_type_comment (return_slot node def_end) = false.
Proof. unfold return_slot. by destruct (ast.returns node). Qed.

(** X5. The function [from_function_node] returns ends with the slot
    named [return], and its [is_return_annotated] agrees with that slot's
    [has_type_annotation]: both are set exactly when the node has a return
    annotation or a function-level type comment. *)
Theorem from_function_node_return_annotated node def_end only_none_returns
    is_class_method is_nested :
  ∃ function return_arg,
    Function.from_function_node node def_end only_none_returns
      is_class_method is_nested = Some function
    ∧ last (Function.args function) = Some return_arg
    ∧ Argument.argname return_arg = "return"
    ∧ Function.is_return_annotated function
      = Argument.has_type_annotation return_arg
    ∧ Function.is_return_annotated function
      = (if ast.returns node is Some _ then true
         else if ast.type_comment node is Some _ then true else false).
Proof.
  destruct (from_function_node_result node def_end only_none_returns
              is_class_method is_nested)
    as (function & Hbuilt & Hmarked & Hplain & Hcomment & _).
  destruct (return_slot_data node def_end)
    as (Hplace & _ & Hflag & _).
  assert (∃ return_arg, last (Function.args function) = Some return_arg
                        ∧ marked_from (return_slot node def_end) return_arg)
    as (return_arg & Hlast & Hreturn).
  { rewrite last_lookup, <- (Forall2_length _ _ _ Hmarked).
    eapply Forall2_lookup_l; [done|].
    unfold node_slots. rewrite length_app. simpl.
    rewrite Nat.add_1_r. simpl. by rewrite list_lookup_middle. }
  exists function, return_arg. split_and!; try done.
  - destruct Hreturn as [->| ->]; by injection Hplace.
  - destruct (ast.type_comment node) as [hint_tree|] eqn:Hcase.
    + destruct Hcomment as (-> & _ & front & arg & Hargs); [done|].
      rewrite Hargs, last_snoc in Hlast. by injection Hlast as <-.
    + destruct Hplain as (Hargs & -> & _); [done|].
      rewrite Hargs in Hlast. unfold node_slots in Hlast.
      rewrite last_snoc in Hlast. injection Hlast as <-. by rewrite Hflag.
  - destruct (ast.type_comment node) as [hint_tree|] eqn:Hcase.
    + destruct Hcomment as (-> & _); [done|]. by destruct (ast.returns node).
    + destruct Hplain as (_ & -> & _); [done|]. by destruct (ast.returns node).
Qed.

Lemma existsb_false_Forall {A : Type} (f : A → bool) (l : list A) :
  existsb f l = false ↔ Forall (λ x, f x = false) l.
Proof.
  induction l as [|x l IH]; simpl.
  - split; [constructor|done].
  - rewrite orb_false_iff, IH, Forall_cons. done.
Qed.

(** X6. The function [from_function_node] returns is dynamically typed
    exactly when the node has no return annotation, no function-level type
    comment, and no argument with an annotation or a type comment of its
    own. In particular a function-level type comment alone makes the
    function typed, whatever it hints. *)
Theorem from_function_node_dynamically_typed node def_end only_none_returns
    is_class_method is_nested :
  ∃ function,
    Function.from_function_node node def_end only_none_returns
      is_class_method is_nested = Some function
    ∧ (Function.is_dynamically_typed function = true
       ↔ ast.returns node = None
         ∧ ast.type_comment node = None
         ∧ Forall (λ p, node_arg_hinted p.1 = false)
                  (node_args (ast.fargs node))).
Proof.
  destruct (from_function_node_result node def_end only_none_returns
              is_class_method is_nested)
    as (function & Hbuilt & _ & Hplain & Hcomment & _).
  exists function. split; [done|].
  unfold Function.is_dynamically_typed. rewrite negb_true_iff.
  destruct (ast.type_comment node) as [hint_tree|].
  - destruct Hcomment as (_ & _ & front & arg & ->); [done|].
    rewrite existsb_app. simpl. rewrite !orb_true_r. split; [done|].
    by intros (_ & ? & _).
  - destruct Hplain as (-> & _); [done|]. unfold node_slots.
    rewrite existsb_app. simpl. rewrite orb_false_r, orb_false_iff.
    destruct (return_slot_data node def_end) as (_ & _ & -> & _).
    rewrite existsb_false_Forall, Forall_fmap.
    assert (Hflags :
      Forall (λ p, node_arg_hinted p.1 = false) (node_args (ast.fargs node))
      ↔ Forall ((λ arg, Argument.has_type_annotation arg = false)
                ∘ (λ p, Argument.from_arg_node p.1 p.2))
               (node_args (ast.fargs node))).
    { apply Forall_iff. intros [arg arg_type]. simpl.
      by destruct (from_arg_node_data arg arg_type) as (_ & _ & _ & -> & _). }
    rewrite <- Hflags. destruct (ast.returns node); split; try done.
    + by intros [_ ?].
    + by intros (? & _).
    + by intros [? _].
    + by intros (_ & _ & ?).
Qed.

(** X7. The function [from_function_node] returns carries the name,
    position and decorators of the node; its function type is read off the
    name; [has_type_comment] records whether the node has a function-level
    type comment; [has_only_none_returns] is the visitor's verdict. Its
    [class_decorator_type] is that of the decorators when it is built as a
    method, and [None] otherwise, even under [classmethod] or
    [staticmethod]. *)
Theorem from_function_node_fields node def_end only_none_returns
    is_class_method is_nested :
  ∃ function,
    Function.from_function_node node def_end only_none_returns
      is_class_method is_nested = Some function
    ∧ (Function.lineno function, Function.col_offset function,
       Function.name function)
      = (ast.lineno node, ast.col_offset node, ast.name node)
    ∧ Function.decorator_list function = ast.decorator_list node
    ∧ Function.function_type function
      = Function.get_function_type (ast.name node)
    ∧ Function.has_type_comment function
      = (if ast.type_comment node is Some _ then true else false)
    ∧ Function.has_only_none_returns function = only_none_returns
    ∧ Function.is_nested function = is_nested
    ∧ Function.is_class_method function = is_class_method
    ∧ Function.class_decorator_type function
      = (if is_class_method then Function.get_class_decorator_type node
         else None).
Proof.
  destruct (from_function_node_result node def_end only_none_returns
              is_class_method is_nested)
    as (function & Hbuilt & _ & Hplain & Hcomment
        & Hname & Hlineno & Hcol & Htype & Hmethod & Hclass & Hnone & Hnested
        & Hdecorators).
  exists function. rewrite Hname, Hlineno, Hcol. split_and!; try done.
  destruct (ast.type_comment node).
  - by destruct Hcomment as (_ & -> & _).
  - by destruct Hplain as (_ & _ & ->).
Qed.

Lemma existsb_annotated (g : Argument.t → bool) (function : Function.t) :
  existsb g (Function.get_annotated_arguments function) = true
  ↔ ∃ arg, arg ∈ Function.args function
           ∧ Argument.has_type_annotation arg = true ∧ g arg = true.
Proof.
  rewrite existsb_exists. unfold Function.get_annotated_arguments. split.
  - intros (arg & Harg%list_elem_of_In%list_elem_of_filter & Hg).
    exists arg. by destruct Harg.
  - intros (arg & Harg & Hflag & Hg). exists arg. split; [|done].
    by apply list_elem_of_In, list_elem_of_filter.
Qed.

Lemma elem_of_node_slots node def_end arg :
  arg ∈ node_slots node def_end
  ↔ (∃ p, p ∈ node_args (ast.fargs node)
          ∧ arg = Argument.from_arg_node p.1 p.2)
    ∨ arg = return_slot node def_end.
Proof.
  unfold node_slots.
  rewrite elem_of_app, list_elem_of_fmap, list_elem_of_singleton. split.
  - intros [(p & -> & ?)| ->]; [left; by exists p|by right].
  - intros [(p & ? & ->)| ->]; [left; by exists p|by right].
Qed.

Lemma marked_from_elem_of_r arguments arguments' arg' :
  Forall2 marked_from arguments arguments' →
  arg' ∈ arguments' →
  ∃ arg, arg ∈ arguments ∧ marked_from arg arg'.
Proof.
  intros Hmarked (i & Hi)%list_elem_of_lookup.
  destruct (Forall2_lookup_r _ _ _ _ _ Hmarked Hi) as (arg & Hi' & Harg).
  exists arg. split; [|done]. apply list_elem_of_lookup. by exists i.
Qed.

(** X8. For the function [from_function_node] returns, the mixed-style
    check yields ANN301, at the position and under the name of the
    definition, exactly when the node has an inline annotation somewhere (on
    an argument or on the return) and a type comment somewhere (on the
    function or on an argument); otherwise it yields nothing. *)
Theorem from_function_node_mixed_style node def_end only_none_returns
    is_class_method is_nested :
  ∃ function,
    Function.from_function_node node def_end only_none_returns
      is_class_method is_nested = Some function
    ∧ mixed_style_errors function
      = if decide ((is_Some (ast.returns node)
                    ∨ Exists (λ p, is_Some (ast.arg_annotation p.1))
                             (node_args (ast.fargs node)))
                   ∧ (is_Some (ast.type_comment node)
                      ∨ Exists (λ p, truthy_str (ast.arg_type_comment p.1) = true)
                               (node_args (ast.fargs node))))
        then [(ast.lineno node, ast.col_offset node, ast.name node, ANN301)]
        else [].
Proof.
  destruct (from_function_node_result node def_end only_none_returns
              is_class_method is_nested)
    as (function & Hbuilt & Hmarked & Hplain & Hcomment
        & Hname & Hlineno & Hcol & _).
  exists function. split; [done|]. rewrite mixed_style_errors_spec.
  assert (Hinline :
    existsb Argument.has_3107_annotation
      (Function.get_annotated_arguments function) = true
    ↔ is_Some (ast.returns node)
      ∨ ∃ p, p ∈ node_args (ast.fargs node) ∧ is_Some (ast.arg_annotation p.1)).
  { rewrite existsb_annotated. split.
    - intros (arg' & Harg' & _ & Hflag).
      destruct (marked_from_elem_of_r _ _ _ Hmarked Harg')
        as (arg & Harg & Hfrom).
      destruct (marked_from_flags _ _ Hfrom) as (_ & _ & Heq).
      rewrite Heq in Hflag. apply elem_of_node_slots in Harg.
      destruct Harg as [(p & Hp & ->)| ->].
      + right. exists p. split; [done|].
        destruct (from_arg_node_data p.1 p.2) as (_ & _ & Hdata & _).
        rewrite Hdata in Hflag. by destruct (ast.arg_annotation p.1).
      + left. destruct (return_slot_data node def_end) as (_ & _ & _ & Hdata & _).
        rewrite Hdata in Hflag. by destruct (ast.returns node).
    - intros Hnode.
      assert (∃ arg, arg ∈ node_slots node def_end
                     ∧ Argument.has_type_annotation arg = true
                     ∧ Argument.has_3107_annotation arg = true)
        as (arg & Harg & Hflag & Hflag').
      { destruct Hnode as [Hreturns|(p & Hp & Hannotation)].
        - exists (return_slot node def_end).
          split; [apply elem_of_node_slots; by right|].
          destruct (return_slot_data node def_end) as (_ & _ & -> & -> & _).
          by destruct Hreturns as [? ->].
        - exists (Argument.from_arg_node p.1 p.2).
          split; [apply elem_of_node_slots; left; by exists p|].
          destruct (from_arg_node_data p.1 p.2) as (_ & _ & -> & -> & _).
          unfold node_arg_hinted. by destruct Hannotation as [? ->]. }
      destruct (marked_from_elem_of _ _ _ Hmarked Harg) as (arg' & Harg' & Hfrom).
      destruct (marked_from_flags _ _ Hfrom) as (Hkeep & _ & Heq).
      exists arg'. split_and!; [done|by apply Hkeep|by rewrite Heq]. }
  assert (Hcommented :
    Function.has_type_comment function
    || existsb Argument.has_type_comment
         (Function.get_annotated_arguments function) = true
    ↔ is_Some (ast.type_comment node)
      ∨ ∃ p, p ∈ node_args (ast.fargs node)
             ∧ truthy_str (ast.arg_type_comment p.1) = true).
  { destruct (ast.type_comment node) as [hint_tree|].
    - destruct Hcomment as (_ & -> & _); [done|]. simpl. split; [by left|done].
    - destruct Hplain as (Hargs & _ & ->); [done|]. simpl.
      rewrite existsb_annotated, Hargs. split.
      + intros (arg & Harg%elem_of_node_slots & _ & Hflag). right.
        destruct Harg as [(p & Hp & ->)| ->].
        * exists p. split; [done|].
          by destruct (from_arg_node_data p.1 p.2) as (_ & _ & _ & _ & <-).
        * destruct (return_slot_data node def_end) as (_ & _ & _ & _ & Hdata).
          by rewrite Hdata in Hflag.
      + intros [[? ?]|(p & Hp & Htruthy)]; [done|].
        exists (Argument.from_arg_node p.1 p.2).
        split; [apply elem_of_node_slots; left; by exists p|].
        destruct (from_arg_node_data p.1 p.2) as (_ & _ & _ & -> & ->).
        unfold node_arg_hinted. by rewrite Htruthy, orb_true_r. }
  unfold to_flake8, from_function. simpl. rewrite Hname, Hlineno, Hcol.
  rewrite <- !Exists_exists in Hinline, Hcommented.
  case_decide as Hmixed.
  - destruct Hmixed as [Hi Hc]. apply Hinline in Hi. apply Hcommented in Hc.
    by rewrite Hi, Hc.
  - destruct (_ || _) eqn:Hc; simpl; [|done].
    destruct (existsb Argument.has_3107_annotation _) eqn:Hi; [|done].
    destruct Hmixed. split; [by apply Hinline|by apply Hcommented].
Qed.

(** ** The comment pass *)




Lemma aligned_ellipses (arguments : list Argument.t) slots :
  Forall (λ slot, ast.isinstance_Ellipsis slot = true) slots →
  aligned arguments slots = arguments.
Proof.
  revert slots. induction arguments as [|arg arguments IH]; intros slots Hslots;
    [by destruct slots|].
  destruct slots as [|slot slots]; [done|]. simpl.
  inversion Hslots as [|?? Hslot Hslots']; subst. by rewrite Hslot, IH.
Qed.

Lemma aligned_covered (arguments : list Argument.t) slots :
  (length arguments ≤ length slots)%nat →
  Forall (λ slot, ast.isinstance_Ellipsis slot = false) slots →
  aligned arguments slots = Function.mark_type_comment <$> arguments.
Proof.
  revert slots. induction arguments as [|arg arguments IH]; intros slots Hlen Hslots;
    [by destruct slots|].
  destruct slots as [|slot slots]; simpl in *; [lia|].
  inversion Hslots as [|?? Hslot Hslots']; subst.
  rewrite Hslot, IH; [done|lia|done].
Qed.

Lemma mark_type_comment_idemp (arg : Argument.t) :
  Function.mark_type_comment (Function.mark_type_comment arg)
  = Function.mark_type_comment arg.
Proof. done. Qed.

Lemma alter_last_snoc (front : list Argument.t) arg :
  alter Function.mark_type_comment (length (front ++ [arg]) - 1)%nat
    (front ++ [arg])
  = front ++ [Function.mark_type_comment arg].
Proof.
  rewrite length_app. simpl.
  replace (length front + 1 - 1)%nat with (length front + 0)%nat by lia.
  by rewrite alter_app_r.
Qed.

(** X10. A function-level type comment whose argument types are all
    ellipses, or which has none, marks the return slot and nothing else,
    for a method as for a plain function. *)
Theorem try_type_comment_ellipsis (func_obj : Function.t) hint_tree front arg :
  Forall (λ slot, ast.isinstance_Ellipsis slot = true) (ast.argtypes hint_tree) →
  Function.args func_obj = front ++ [arg] →
  Function.try_type_comment func_obj hint_tree
  = Some (Function.set_is_return_annotated true
            (Function.set_args (front ++ [Function.mark_type_comment arg])
               func_obj)).
Proof.
  intros Hslots Hargs.
  rewrite try_type_comment_aligned by (rewrite Hargs; by intros [_ ?]%app_eq_nil).
  rewrite aligned_ellipses.
  - by rewrite Hargs, alter_last_snoc.
  - rewrite maybe_inject_class_argument_spec. case_decide; [|done].
    by constructor.
Qed.

(** A witness of [try_type_comment_ellipsis]: [bar] under the comment
    [(...) -> int]. *)
Lemma try_type_comment_ellipsis_witness :
  (λ function, Argument.has_type_annotation <$> Function.args function)
    <$> Function.try_type_comment samples.bar_before_comment
          (ast.mk_FunctionType [ast.Ellipsis])
  = Some [false; false; true].
Proof.
  assert (Hslots :
            Forall (λ slot, ast.isinstance_Ellipsis slot = true)
                   (ast.argtypes (ast.mk_FunctionType [ast.Ellipsis])))
    by (by repeat constructor).
  rewrite (try_type_comment_ellipsis samples.bar_before_comment
             (ast.mk_FunctionType [ast.Ellipsis])
             [Argument.mk "self" 2 12 ARGS false false false;
              Argument.mk "a" 2 18 ARGS false false false]
             (Argument.mk "return" 2 20 RETURN false false false)
             Hslots eq_refl).
  reflexivity.
Defined.

(** X11. A function-level type comment with a real hint for every
    argument, the receiver of a method included, or with more hints than
    there are arguments, marks every argument and the return slot: nothing
    is injected, hints are taken by position from the first argument, and
    surplus hints are dropped without error. *)
Theorem try_type_comment_all_hinted (func_obj : Function.t) hint_tree front arg :
  Function.args func_obj = front ++ [arg] →
  (length front ≤ length (ast.argtypes hint_tree))%nat →
  Forall (λ slot, ast.isinstance_Ellipsis slot = false) (ast.argtypes hint_tree) →
  Function.try_type_comment func_obj hint_tree
  = Some (Function.set_is_return_annotated true
            (Function.set_args
               (Function.mark_type_comment <$> Function.args func_obj)
               func_obj)).
Proof.
  intros Hargs Hlen Hslots.
  rewrite try_type_comment_aligned by (rewrite Hargs; by intros [_ ?]%app_eq_nil).
  rewrite maybe_inject_class_argument_spec, decide_False.
  - do 3 f_equal. rewrite Hargs.
    destruct (decide (length (ast.argtypes hint_tree) = length front)) as [Heq|Hne].
    + rewrite aligned_all_hinted by done.
      replace (length (front ++ [arg]))
        with (length ((Function.mark_type_comment <$> front) ++ [arg]))
        by (by rewrite !length_app, length_fmap).
      by rewrite alter_last_snoc, fmap_app.
    + rewrite aligned_covered; [|rewrite length_app; simpl; lia|done].
      rewrite <- (length_fmap Function.mark_type_comment (front ++ [arg])).
      rewrite fmap_app. simpl. by rewrite alter_last_snoc.
  - rewrite Hargs, length_app. simpl. lia.
Qed.

(** A witness of [try_type_comment_all_hinted]: [bar] under the comment
    [(Foo, int) -> int], which hints [self] as well. *)
Lemma try_type_comment_all_hinted_witness :
  (λ function, Argument.has_type_annotation <$> Function.args function)
    <$> Function.try_type_comment samples.bar_before_comment
          (ast.mk_FunctionType [ast.Name "Foo"; ast.Name "int"])
  = Some [true; true; true].
Proof.
  assert (Hslots :
            Forall (λ slot, ast.isinstance_Ellipsis slot = false)
                   (ast.argtypes
                      (ast.mk_FunctionType [ast.Name "Foo"; ast.Name "int"])))
    by (by repeat constructor).
  assert (Hlen : (length [Argument.mk "self" 2 12 ARGS false false false;
                          Argument.mk "a" 2 18 ARGS false false false]
                  ≤ length (ast.argtypes
                              (ast.mk_FunctionType
                                 [ast.Name "Foo"; ast.Name "int"])))%nat)
    by (simpl; lia).
  rewrite (try_type_comment_all_hinted samples.bar_before_comment
             (ast.mk_FunctionType [ast.Name "Foo"; ast.Name "int"])
             [Argument.mk "self" 2 12 ARGS false false false;
              Argument.mk "a" 2 18 ARGS false false false]
             (Argument.mk "return" 2 20 RETURN false false false)
             eq_refl Hlen Hslots).
  reflexivity.
Defined.

(** ** Functions the loop skips *)

Lemma run_function_skipped (self : TypeHintChecker) last function :
  skipped_entirely self function = true →
  run_function self last function = ([], last).
Proof. intros Hskipped. unfold run_function. by rewrite Hskipped. Qed.

(** X12. A function the loop skips, as dynamically typed under one of
    the two allow-untyped options or as dispatch decorated, leaves no trace:
    the errors of a file, and the overload name at its end, are those of the
    file with every such definition removed. *)
Theorem skipped_functions_leave_no_trace (self : TypeHintChecker)
    (last : option string) (function_definitions : list Function.t) :
  run_loop self last function_definitions
  = run_loop self last
      (filter (λ function, skipped_entirely self function = false)
              function_definitions)
  ∧ overload_name_after self last function_definitions
    = overload_name_after self last
        (filter (λ function, skipped_entirely self function = false)
                function_definitions).
Proof.
  revert last.
  induction function_definitions as [|function function_definitions IH];
    intros last; [done|].
  rewrite filter_cons.
  destruct (skipped_entirely self function) eqn:Hskipped.
  - rewrite decide_False by done. simpl.
    rewrite run_function_skipped by done. apply IH.
  - rewrite decide_True by done. simpl.
    destruct (IH (run_function self last function).2) as [-> ->]. done.
Qed.

Lemma run_loop_all_skipped (self : TypeHintChecker) last function_definitions :
  Forall (λ function, skipped_entirely self function = true)
         function_definitions →
  run_loop self last function_definitions = [].
Proof.
  induction 1 as [|function function_definitions Hskipped _ IH]; [done|].
  simpl. by rewrite run_function_skipped.
Qed.

(** X13. Each of the three skipping conditions silences a file made of
    such definitions: under [allow_untyped_defs] a file of dynamically typed
    functions, under [allow_untyped_nested] a file of dynamically typed
    nested functions, and under any options a file of functions whose first
    decorator matches the dispatch set, yield no error at all. *)
Theorem skipping_options_silence (self : TypeHintChecker)
    (function_definitions : list Function.t) :
  (allow_untyped_defs self = true →
   Forall (λ function, Function.is_dynamically_typed function = true)
          function_definitions →
   run self function_definitions = [])
  ∧ (allow_untyped_nested self = true →
     Forall (λ function, Function.is_dynamically_typed function = true
                         ∧ Function.is_nested function = true)
            function_definitions →
     run self function_definitions = [])
  ∧ (Forall (λ function,
               Function.has_decorator function (dispatch_decorators self) = true)
            function_definitions →
     run self function_definitions = []).
Proof.
  split_and!.
  - intros Hoption Hall. apply run_loop_all_skipped.
    eapply Forall_impl; [exact Hall|]. intros function Hdynamic.
    unfold skipped_entirely. by rewrite Hdynamic, Hoption.
  - intros Hoption Hall. apply run_loop_all_skipped.
    eapply Forall_impl; [exact Hall|]. intros function [Hdynamic Hnested].
    unfold skipped_entirely. rewrite Hdynamic, Hoption, Hnested.
    by destruct (allow_untyped_defs self).
  - intros Hall. apply run_loop_all_skipped.
    eapply Forall_impl; [exact Hall|]. intros function Hdispatch.
    unfold skipped_entirely. rewrite Hdispatch. apply orb_true_r.
Qed.

(** A witness of [skipping_options_silence]: the overload series under
    [--allow-untyped-defs]. *)
Lemma skipping_options_silence_witness :
  allow_untyped_defs samples.untyped_options = true
  ∧ Forall (λ function, Function.is_dynamically_typed function = true)
           [samples.foo_1; samples.foo_2; samples.foo_3]
  ∧ run samples.untyped_options [samples.foo_1; samples.foo_2; samples.foo_3]
    = [].
Proof.
  assert (Hall : Forall (λ function, Function.is_dynamically_typed function = true)
                        [samples.foo_1; samples.foo_2; samples.foo_3])
    by (by repeat constructor).
  split_and!; [done|done|].
  exact (proj1 (skipping_options_silence samples.untyped_options
                  [samples.foo_1; samples.foo_2; samples.foo_3])
           eq_refl Hall).
Defined.

(** ** Whole files *)

Lemma missing_annotation_errors_fully_annotated self function :
  Function.is_fully_annotated function = true →
  missing_annotation_errors self function = [].
Proof.
  intros Hfully%filter_unflag_nil.
  unfold Function.is_fully_annotated in *.
  pose proof (missed_annotations_indexed_snd function) as Hsnd.
  unfold Function.get_missed_annotations in Hsnd. rewrite Hfully in Hsnd.
  apply fmap_nil_inv in Hsnd. unfold missing_annotation_errors.
  by rewrite Hsnd.
Qed.

Lemma existsb_filter_false {A : Type} (flag : A → bool) (P : A → Prop)
    `{!∀ x, Decision (P x)} (l : list A) :
  Forall (λ x, flag x = false) l → existsb flag (filter P l) = false.
Proof.
  intros Hall. apply existsb_false_Forall.
  apply Forall_forall. intros x [_ Hx]%list_elem_of_filter.
  by eapply Forall_forall in Hall.
Qed.

(** X14. A file of fully annotated functions yields no error but
    ANN301, under any options; and none at all when each function keeps to
    one style, all its annotations being inline or all of them type
    comments. *)
Theorem fully_annotated_file (self : TypeHintChecker)
    (function_definitions : list Function.t) :
  Forall (λ function, Function.is_fully_annotated function = true)
         function_definitions →
  Forall (λ d, fe_code d = ANN301) (run self function_definitions)
  ∧ (Forall (λ function,
               Forall (λ arg, Argument.has_3107_annotation arg = false)
                      (Function.args function)
               ∨ (Function.has_type_comment function = false
                  ∧ Forall (λ arg, Argument.has_type_comment arg = false)
                           (Function.args function)))
            function_definitions →
     run self function_definitions = []).
Proof.
  intros Hall. unfold run. generalize (@None string).
  induction Hall as [|function function_definitions Hfully _ IH]; intros last;
    [by split|].
  assert (Hout : (run_function self last function).1 = []
                 ∨ (run_function self last function).1
                   = mixed_style_errors function).
  { unfold run_function.
    rewrite missing_annotation_errors_fully_annotated, app_nil_r by done.
    repeat case_match; auto. }
  destruct (IH (run_function self last function).2) as [IHcodes IHsilent].
  split.
  - simpl. apply Forall_app. split; [|done].
    destruct Hout as [->| ->]; [done|apply mixed_style_errors_code].
  - intros Hstyles. inversion Hstyles as [|?? Hstyle Hstyles']; subst. simpl.
    rewrite IHsilent, app_nil_r by done.
    destruct Hout as [->| ->]; [done|].
    rewrite mixed_style_errors_spec.
    destruct Hstyle as [Hinline|[Hcomment Hcomments]].
    + unfold Function.get_annotated_arguments.
      rewrite (existsb_filter_false Argument.has_3107_annotation) by done.
      by rewrite andb_false_r.
    + unfold Function.get_annotated_arguments.
      rewrite Hcomment.
      by rewrite (existsb_filter_false Argument.has_type_comment).
Qed.

(** A witness of [fully_annotated_file]: a file of two fully annotated
    methods, one in each style. *)
Lemma fully_annotated_file_witness :
  Forall (λ function, Function.is_fully_annotated function = true)
         [more_samples.bar_inline_full; more_samples.bar_comment_full]
  ∧ run default_options
        [more_samples.bar_inline_full; more_samples.bar_comment_full] = [].
Proof.
  assert (Hfully :
            Forall (λ function, Function.is_fully_annotated function = true)
                   [more_samples.bar_inline_full; more_samples.bar_comment_full])
    by (by repeat constructor).
  split; [done|].
  apply (proj2 (fully_annotated_file default_options
                  [more_samples.bar_inline_full; more_samples.bar_comment_full]
                  Hfully)).
  apply Forall_cons_2; [|apply Forall_cons_2; [|apply Forall_nil_2]].
  - right. split; [done|]. by repeat constructor.
  - left. by repeat constructor.
Defined.

Lemma run_function_no_overload self last function :
  Function.has_decorator function (overload_decorators self) = false →
  (run_function self last function).2 = last.
Proof. intros Hplain. unfold run_function. rewrite Hplain. by repeat case_match. Qed.

(** X15. In a file where no function matches the overload set, the
    functions are judged one by one: the errors of the file are the errors
    of each function taken alone, in source order, and the overload name is
    never written. *)
Theorem functions_judged_alone (self : TypeHintChecker) (last : option string)
    (function_definitions : list Function.t) :
  Forall (λ function,
            Function.has_decorator function (overload_decorators self) = false)
         function_definitions →
  run_loop self last function_definitions
  = function_definitions ≫= (λ function, (run_function self last function).1)
  ∧ overload_name_after self last function_definitions = last.
Proof.
  induction 1 as [|function function_definitions Hplain _ IH]; [done|].
  destruct IH as [IHrun IHstate]. rewrite bind_cons.
  cbn [run_loop overload_name_after].
  rewrite (run_function_no_overload self last function Hplain).
  by rewrite IHrun, IHstate.
Qed.

(** A witness of [functions_judged_alone]: two undecorated functions. *)
Lemma functions_judged_alone_witness :
  Forall (λ function,
            Function.has_decorator function
              (overload_decorators default_options) = false)
         [samples.qux; samples.init_method]
  ∧ run_loop default_options None [samples.qux; samples.init_method]
    = (run_function default_options None samples.qux).1
      ++ (run_function default_options None samples.init_method).1.
Proof.
  assert (Hplain :
            Forall (λ function,
                      Function.has_decorator function
                        (overload_decorators default_options) = false)
                   [samples.qux; samples.init_method])
    by (by repeat constructor).
  split; [done|].
  rewrite (proj1 (functions_judged_alone default_options None
                    [samples.qux; samples.init_method] Hplain)).
  reflexivity.
Defined.

Lemma run_loop_app (self : TypeHintChecker) last l1 l2 :
  run_loop self last (l1 ++ l2)
  = run_loop self last l1 ++ run_loop self (overload_name_after self last l1) l2.
Proof.
  revert last. induction l1 as [|function l1 IH]; intros last; [done|].
  simpl. by rewrite IH, app_assoc.
Qed.

Lemma overload_name_after_app (self : TypeHintChecker) last l1 l2 :
  overload_name_after self last (l1 ++ l2)
  = overload_name_after self (overload_name_after self last l1) l2.
Proof.
  revert last. induction l1 as [|function l1 IH]; intros last; [done|].
  simpl. by rewrite IH.
Qed.

Lemma run_function_state (self : TypeHintChecker) last function :
  (run_function self last function).2 = last
  ∨ ((run_function self last function).2 = Some (Function.name function)
     ∧ Function.has_decorator function (overload_decorators self) = true
     ∧ skipped_entirely self function = false).
Proof.
  unfold run_function.
  destruct (skipped_entirely self function); [by left|].
  destruct (closes_overload last function); [by left|]. simpl.
  destruct (Function.has_decorator function (overload_decorators self));
    [by right|by left].
Qed.

(** X16. The loop over a file composes: the errors of two parts of a
    file in sequence are the errors of the first part followed by those of
    the second part started from the overload name the first part leaves.
    That name is the one the part started from, or the name of one of its
    functions that matches the overload set and is not skipped. *)
Theorem run_loop_composes (self : TypeHintChecker) (last : option string)
    (part part' : list Function.t) :
  run_loop self last (part ++ part')
  = run_loop self last part
    ++ run_loop self (overload_name_after self last part) part'
  ∧ overload_name_after self last (part ++ part')
    = overload_name_after self (overload_name_after self last part) part'
  ∧ (overload_name_after self last part = last
     ∨ ∃ function,
         function ∈ part
         ∧ Function.has_decorator function (overload_decorators self) = true
         ∧ skipped_entirely self function = false
         ∧ overload_name_after self last part = Some (Function.name function)).
Proof.
  split_and!; [apply run_loop_app|apply overload_name_after_app|].
  revert last. induction part as [|function part IH]; intros last; [by left|].
  simpl. destruct (IH (run_function self last function).2)
    as [Hkept|(function' & Hin & Hoverload & Hreached & Hname)].
  - rewrite Hkept.
    destruct (run_function_state self last function)
      as [->|(-> & Hoverload & Hreached)]; [by left|].
    right. exists function. split_and!; try done. apply list_elem_of_here.
  - right. exists function'. split_and!; try done.
    by apply list_elem_of_further.
Qed.

(** X17. A stored overload name outlives the definitions that follow
    it: after any run of functions none of which matches the overload set,
    a function of the stored name still yields none of the errors of its
    missed annotations, and the name is still in force after it. *)
Theorem overload_name_outlives (self : TypeHintChecker) (name : string)
    (between : list Function.t) (function : Function.t)
    (rest : list Function.t) :
  Forall (λ function,
            Function.has_decorator function (overload_decorators self) = false)
         between →
  Function.name function = name →
  run_loop self (Some name) (between ++ function :: rest)
  = run_loop self (Some name) between
    ++ (if skipped_entirely self function then []
        else mixed_style_errors function)
    ++ run_loop self (Some name) rest.
Proof.
  intros Hbetween <-. rewrite run_loop_app.
  assert (Hstate :
    overload_name_after self (Some (Function.name function)) between
    = Some (Function.name function)).
  { clear rest. induction Hbetween as [|function' between Hplain _ IH]; [done|].
    simpl. by rewrite run_function_no_overload. }
  rewrite Hstate. simpl.
  destruct (run_function_closing self function) as [-> _].
  do 2 f_equal. unfold run_function, closes_overload.
  rewrite bool_decide_eq_true_2 by done.
  by destruct (skipped_entirely self function).
Qed.

(** A witness of [overload_name_outlives]: with the name [foo] stored,
    the unrelated [qux] does not release it, and the later, unannotated
    [foo] is not reported. *)
Lemma overload_name_outlives_witness :
  Forall (λ function,
            Function.has_decorator function
              (overload_decorators default_options) = false)
         [samples.qux]
  ∧ Function.name samples.foo_3 = "foo"
  ∧ run_loop default_options (Some "foo") ([samples.qux] ++ [samples.foo_3])
    = run_loop default_options (Some "foo") [samples.qux]
      ++ (if skipped_entirely default_options samples.foo_3 then []
          else mixed_style_errors samples.foo_3)
      ++ run_loop default_options (Some "foo") [].
Proof.
  assert (Hplain :
            Forall (λ function,
                      Function.has_decorator function
                        (overload_decorators default_options) = false)
                   [samples.qux])
    by (by repeat constructor).
  split_and!; [done|done|].
  exact (overload_name_outlives default_options "foo" [samples.qux]
           samples.foo_3 [] Hplain eq_refl).
Defined.

(** ** The loop over the missed annotations *)

Lemma missing_annotation_error_cases self function index arg :
  missing_annotation_error self function index arg = []
  ∨ missing_annotation_error self function index arg
    = [to_flake8 (classify_error function index arg)].
Proof. unfold missing_annotation_error. repeat case_match; auto. Qed.

Lemma missing_annotation_error_unsuppressed self function index arg :
  suppress_none_returning self = false →
  suppress_dummy_args self = false →
  mypy_init_return self = false →
  missing_annotation_error self function index arg
  = [to_flake8 (classify_error function index arg)].
Proof.
  intros Hnone Hdummy Hinit. unfold missing_annotation_error.
  rewrite Hnone, Hdummy, Hinit. simpl. rewrite andb_false_r.
  by destruct (String.eqb (Argument.argname arg) "return").
Qed.

Lemma bind_sublist_fmap {A B : Type} (g : A → list B) (h : A → B) (l : list A) :
  (∀ x, g x = [] ∨ g x = [h x]) → l ≫= g `sublist_of` h <$> l.
Proof.
  intros Hg. induction l as [|x l IH]; [done|].
  rewrite bind_cons, fmap_cons.
  destruct (Hg x) as [->| ->]; simpl; by constructor.
Qed.

Lemma fmap_bind_list {A B C : Type} (f : B → C) (g : A → list B) (l : list A) :
  f <$> (l ≫= g) = l ≫= (λ x, f <$> g x).
Proof.
  induction l as [|x l IH]; [done|]. by rewrite !bind_cons, fmap_app, IH.
Qed.

(** X18. The loop over the missed annotations reports at most one error
    per missed annotation, at the position and under the name of that
    argument, in declaration order: the places of its errors are a
    subsequence of the places of the missed annotations, and never the
    place of an annotated argument. With none of the three suppression
    options set, they are all of them. *)
Theorem missing_annotation_errors_places (self : TypeHintChecker)
    (function : Function.t) :
  error_place <$> missing_annotation_errors self function
    `sublist_of` place <$> Function.get_missed_annotations function
  ∧ (suppress_none_returning self = false →
     suppress_dummy_args self = false →
     mypy_init_return self = false →
     error_place <$> missing_annotation_errors self function
     = place <$> Function.get_missed_annotations function).
Proof.
  rewrite <- missed_annotations_indexed_snd, <- list_fmap_compose.
  unfold missing_annotation_errors. split.
  - rewrite fmap_bind_list.
    apply bind_sublist_fmap. intros [index arg]. simpl.
    destruct (missing_annotation_error_cases self function index arg)
      as [->| ->]; [by left|by right].
  - intros Hnone Hdummy Hinit.
    generalize (missed_annotations_indexed function). intros l.
    induction l as [|[index arg] l IH]; [done|].
    rewrite bind_cons, fmap_app, IH. simpl.
    by rewrite missing_annotation_error_unsuppressed.
Qed.

(** X19. With [suppress_dummy_args] set, no error of the loop over the
    missed annotations is bound to the name [_], whatever the kind or the
    place of that argument, the receiver of a method included; the errors
    bound to other names are those obtained with the option off. *)
Theorem suppress_dummy_args_effect (self : TypeHintChecker)
    (function : Function.t) :
  (suppress_dummy_args self = true →
   Forall (λ d, fe_argname d ≠ "_") (missing_annotation_errors self function))
  ∧ filter (λ d, fe_argname d ≠ "_") (missing_annotation_errors self function)
    = filter (λ d, fe_argname d ≠ "_")
        (missing_annotation_errors (set_suppress_dummy_args false self) function).
Proof.
  unfold missing_annotation_errors. split.
  - intros Hoption. apply Forall_bind, Forall_forall. intros [index arg] _.
    simpl. unfold missing_annotation_error. rewrite Hoption, andb_true_r.
    destruct (String.eqb (Argument.argname arg) "_") eqn:Hname;
      repeat case_match; repeat constructor;
      rewrite fe_argname_classify_error; by apply String.eqb_neq.
  - rewrite !filter_bind. apply Forall_bind_ext, Forall_forall.
    intros [index arg] _. simpl. unfold missing_annotation_error. simpl.
    destruct (String.eqb (Argument.argname arg) "_") eqn:Hname; simpl.
    + apply String.eqb_eq in Hname.
      repeat case_match; try done;
        rewrite ?filter_cons_False, ?filter_nil; try done;
        rewrite fe_argname_classify_error; by intros ?.
    + done.
Qed.

(** X20. With [suppress_none_returning] set, a function that has only
    [None] returns yields no error bound to its return slot. The option
    touches nothing else: the errors bound to other names are those
    obtained with the option off, and so are all the errors of a function
    that returns a value somewhere. *)
Theorem suppress_none_returning_effect (self : TypeHintChecker)
    (function : Function.t) :
  (suppress_none_returning self = true →
   Function.has_only_none_returns function = true →
   Forall (λ d, fe_argname d ≠ "return")
          (missing_annotation_errors self function))
  ∧ filter (λ d, fe_argname d ≠ "return")
      (missing_annotation_errors self function)
    = filter (λ d, fe_argname d ≠ "return")
        (missing_annotation_errors (set_suppress_none_returning false self)
           function)
  ∧ (Function.has_only_none_returns function = false →
     missing_annotation_errors self function
     = missing_annotation_errors (set_suppress_none_returning false self)
         function).
Proof.
  unfold missing_annotation_errors. split_and!.
  - intros Hoption Hnone. apply Forall_bind, Forall_forall.
    intros [index arg] Hin. simpl.
    apply missed_annotations_indexed_lookup in Hin as [_ Hmissed].
    destruct (String.eqb (Argument.argname arg) "return") eqn:Hreturn.
    + unfold missing_annotation_error.
      by rewrite Hreturn, Hoption, Hmissed, Hnone.
    + rewrite missing_annotation_error_not_return by done.
      case_match; repeat constructor.
      rewrite fe_argname_classify_error. by apply String.eqb_neq.
  - rewrite !filter_bind. apply Forall_bind_ext, Forall_forall.
    intros [index arg] _. simpl.
    destruct (String.eqb (Argument.argname arg) "return") eqn:Hreturn.
    + apply String.eqb_eq in Hreturn. unfold missing_annotation_error.
      repeat case_match; try done;
        rewrite ?filter_cons_False, ?filter_nil; try done;
        rewrite fe_argname_classify_error; by intros ?.
    + by rewrite !missing_annotation_error_not_return.
  - intros Hnone. apply Forall_bind_ext, Forall_forall. intros [index arg] _.
    unfold missing_annotation_error. simpl. rewrite Hnone.
    by rewrite !andb_false_r.
Qed.

(** A witness of [missing_annotation_errors_places]: [qux] under the
    default options. *)
Lemma missing_annotation_errors_places_witness :
  error_place <$> missing_annotation_errors default_options samples.qux
  = [(4, 4, "c"); (5, 1, "return")].
Proof.
  rewrite (proj2 (missing_annotation_errors_places default_options samples.qux)
             eq_refl eq_refl eq_refl).
  reflexivity.
Defined.

(** A witness of [suppress_dummy_args_effect]: [on_event] under
    [--suppress-dummy-args]. *)
Lemma suppress_dummy_args_effect_witness :
  suppress_dummy_args more_samples.dummy_options = true
  ∧ Forall (λ d, fe_argname d ≠ "_")
      (missing_annotation_errors more_samples.dummy_options
         more_samples.on_event)
  ∧ missing_annotation_errors more_samples.dummy_options more_samples.on_event
    = [(1, 31, "return", ANN201)]
  ∧ missing_annotation_errors default_options more_samples.on_event
    = [(1, 13, "_", ANN001); (1, 31, "return", ANN201)].
Proof.
  split_and!; [done| |reflexivity|reflexivity].
  exact (proj1 (suppress_dummy_args_effect more_samples.dummy_options
                  more_samples.on_event) eq_refl).
Defined.

(** A witness of [suppress_none_returning_effect]: [on_event] under
    [--suppress-none-returning]. *)
Lemma suppress_none_returning_effect_witness :
  suppress_none_returning more_samples.none_returning_options = true
  ∧ Function.has_only_none_returns more_samples.on_event = true
  ∧ Forall (λ d, fe_argname d ≠ "return")
      (missing_annotation_errors more_samples.none_returning_options
         more_samples.on_event)
  ∧ missing_annotation_errors more_samples.none_returning_options
      more_samples.on_event
    = [(1, 13, "_", ANN001)].
Proof.
  split_and!; [done|done| |reflexivity].
  exact (proj1 (suppress_none_returning_effect
                  more_samples.none_returning_options more_samples.on_event)
           eq_refl eq_refl).
Defined.

(** ** Classification *)

Ltac code_membership :=
  rewrite ?elem_of_cons, ?elem_of_nil; intuition congruence.

(** X21. [classify_error] sends the slot named [return], and no other,
    to a code of the ANN2xx family. A receiver code, ANN101 or ANN102, is
    given exactly to the first argument of a method that is not a
    [staticmethod], whatever the kind of that argument, a vararg included;
    every other argument gets ANN001, ANN002 or ANN003. The error keeps the
    name and the position of the argument. *)
Theorem classify_error_families (function : Function.t) (index : nat)
    (arg : Argument.t) :
  (Argument.argname arg = "return"
   ↔ error_codes.code (classify_error function index arg)
     ∈ [ANN201; ANN202; ANN203; ANN204; ANN205; ANN206])
  ∧ (Argument.argname arg ≠ "return"
     ∧ Function.is_class_method function = true
     ∧ index = 0%nat
     ∧ Function.class_decorator_type function ≠ Some STATICMETHOD
     ↔ error_codes.code (classify_error function index arg)
       ∈ [ANN101; ANN102])
  ∧ (error_codes.code (classify_error function index arg) = ANN102
     → Function.class_decorator_type function = Some CLASSMETHOD)
  ∧ error_place (to_flake8 (classify_error function index arg)) = place arg.
Proof.
  unfold classify_error. simpl.
  destruct (String.eqb_spec (Argument.argname arg) "return") as [Hreturn|Hreturn].
  - split_and!; try done.
    + split; [intros _|done].
      unfold _return_error_classifier.
      repeat case_match; code_membership.
    + split; [by intros [? _]|].
      unfold _return_error_classifier.
      repeat case_match; code_membership.
    + unfold _return_error_classifier. repeat case_match; done.
  - split_and!; try done.
    + split; [done|]. unfold _argument_error_classifier.
      repeat case_match; code_membership.
    + unfold _argument_error_classifier.
      destruct (Function.is_class_method function); simpl.
      * destruct index as [|index]; simpl.
        -- destruct (Function.class_decorator_type function) as [[]|]; simpl.
           ++ split; [code_membership|done].
           ++ split; [by intros (_ & _ & _ & ?)|].
              repeat case_match; code_membership.
           ++ split; [code_membership|done].
        -- split; [by intros (_ & _ & ? & _)|].
           repeat case_match; code_membership.
      * split; [by intros (_ & ? & _)|]. repeat case_match; code_membership.
    + unfold _argument_error_classifier.
      destruct (Function.class_decorator_type function) as [[]|];
        repeat case_match; done.
Qed.

(** ** Options *)

(** X22. [parse_options] keeps of the two decorator lists the names
    they contain and nothing else: two option sets with the same flags
    whose decorator lists hold the same names, in whatever order and
    however often repeated, configure the same checker and so give the same
    errors on every file. *)
Theorem parse_options_names (options options' : Namespace) :
  ns_suppress_none_returning options = ns_suppress_none_returning options' →
  ns_suppress_dummy_args options = ns_suppress_dummy_args options' →
  ns_allow_untyped_defs options = ns_allow_untyped_defs options' →
  ns_allow_untyped_nested options = ns_allow_untyped_nested options' →
  ns_mypy_init_return options = ns_mypy_init_return options' →
  (∀ name, name ∈ ns_dispatch_decorators options
           ↔ name ∈ ns_dispatch_decorators options') →
  (∀ name, name ∈ ns_overload_decorators options
           ↔ name ∈ ns_overload_decorators options') →
  parse_options options = parse_options options'
  ∧ ∀ function_definitions,
      run (parse_options options) function_definitions
      = run (parse_options options') function_definitions.
Proof.
  intros Hnone Hdummy Hdefs Hnested Hinit Hdispatch Hoverload.
  assert (Heq : parse_options options = parse_options options').
  { unfold parse_options. rewrite Hnone, Hdummy, Hdefs, Hnested, Hinit.
    f_equal; apply set_eq; intros name; by rewrite !elem_of_list_to_set. }
  split; [done|]. intros function_definitions. by rewrite Heq.
Qed.

(** A witness of [parse_options_names]: the dispatch names given twice
    over and in the other order. *)
Lemma parse_options_names_witness :
  parse_options
    (mk_Namespace false false false false false
       ["singledispatchmethod"; "singledispatch"; "singledispatchmethod"]
       ["overload"])
  = default_options.
Proof.
  apply (parse_options_names
           (mk_Namespace false false false false false
              ["singledispatchmethod"; "singledispatch"; "singledispatchmethod"]
              ["overload"])
           (mk_Namespace false false false false false
              _DEFAULT_DISPATCH_DECORATORS _DEFAULT_OVERLOAD_DECORATORS));
    try done.
  intros name. unfold _DEFAULT_DISPATCH_DECORATORS. simpl.
  rewrite !elem_of_cons, !elem_of_nil. tauto.
Defined.

Lemma run_loop_ext (self self' : TypeHintChecker) last function_definitions :
  Forall (λ function,
            ∀ last, run_function self last function
                    = run_function self' last function)
         function_definitions →
  run_loop self last function_definitions
  = run_loop self' last function_definitions.
Proof.
  intros Hall. revert last.
  induction Hall as [|function function_definitions Hfunction _ IH];
    intros last; [done|].
  simpl. by rewrite Hfunction, IH.
Qed.

Lemma run_function_same_skips (self self' : TypeHintChecker) last function :
  suppress_none_returning self' = suppress_none_returning self →
  suppress_dummy_args self' = suppress_dummy_args self →
  mypy_init_return self' = mypy_init_return self →
  overload_decorators self' = overload_decorators self →
  skipped_entirely self' function = skipped_entirely self function →
  run_function self' last function = run_function self last function.
Proof.
  intros Hnone Hdummy Hinit Hoverload Hskipped.
  unfold run_function. rewrite Hskipped, Hoverload.
  replace (missing_annotation_errors self' function)
    with (missing_annotation_errors self function); [done|].
  unfold missing_annotation_errors. apply Forall_bind_ext, Forall_forall.
  intros [index arg] _. unfold missing_annotation_error.
  by rewrite Hnone, Hdummy, Hinit.
Qed.

(** X23. [allow_untyped_nested] is read only for a dynamically typed
    nested function, and only when [allow_untyped_defs] is off: on a file
    without such functions, and on any file when [allow_untyped_defs] is
    on, the errors do not depend on it. *)
Theorem allow_untyped_nested_scope (self : TypeHintChecker) (b : bool)
    (function_definitions : list Function.t) :
  (allow_untyped_defs self = true →
   run (set_allow_untyped_nested b self) function_definitions
   = run self function_definitions)
  ∧ (Forall (λ function,
               Function.is_nested function = false
               ∨ Function.is_dynamically_typed function = false)
            function_definitions →
     run (set_allow_untyped_nested b self) function_definitions
     = run self function_definitions).
Proof.
  split.
  - intros Hoption. apply run_loop_ext, Forall_forall. intros function _ last.
    apply run_function_same_skips; try done.
    unfold skipped_entirely. simpl. by rewrite Hoption.
  - intros Hall. apply run_loop_ext.
    eapply Forall_impl; [exact Hall|]. intros function Hfunction last.
    apply run_function_same_skips; try done.
    unfold skipped_entirely. simpl.
    destruct Hfunction as [->| ->]; [|done].
    by destruct (Function.is_dynamically_typed function),
         (allow_untyped_defs self).
Qed.

(** A witness of [allow_untyped_nested_scope]: the overload series, whose
    functions are not nested. *)
Lemma allow_untyped_nested_scope_witness :
  Forall (λ function,
            Function.is_nested function = false
            ∨ Function.is_dynamically_typed function = false)
         [samples.foo_1; samples.foo_2; samples.foo_3]
  ∧ run (set_allow_untyped_nested true default_options)
        [samples.foo_1; samples.foo_2; samples.foo_3]
    = run default_options [samples.foo_1; samples.foo_2; samples.foo_3].
Proof.
  assert (Hall :
            Forall (λ function,
                      Function.is_nested function = false
                      ∨ Function.is_dynamically_typed function = false)
                   [samples.foo_1; samples.foo_2; samples.foo_3])
    by (repeat (apply Forall_cons_2; [by left|]); apply Forall_nil_2).
  split; [done|].
  exact (proj2 (allow_untyped_nested_scope default_options true
                  [samples.foo_1; samples.foo_2; samples.foo_3]) Hall).
Defined.

(** ** The closing colon *)

Lemma substring_one (s : string) (i : nat) (c : Ascii.ascii) :
  String.substring i 1 s = String c EmptyString ↔ String.get i s = Some c.
Proof.
  revert i. induction s as [|c' s IH]; intros i.
  - destruct i; simpl; split; discriminate.
  - destruct i as [|i]; simpl.
    + destruct s; simpl; split; intros [= ->]; done.
    + apply IH.
Qed.

Lemma rfind_from_spec (s sub : string) (start count : nat) :
  (rfind_from s sub start count = -1
   ∧ ∀ k, (k < count)%nat →
          String.substring (start + k) (String.length sub) s ≠ sub)
  ∨ ∃ k, (k < count)%nat
         ∧ rfind_from s sub start count = Z.of_nat (start + k)
         ∧ String.substring (start + k) (String.length sub) s = sub
         ∧ ∀ k', (k < k' < count)%nat →
                 String.substring (start + k') (String.length sub) s ≠ sub.
Proof.
  induction count as [|count IH]; simpl.
  - left. split; [done|]. intros k Hk. lia.
  - destruct (String.eqb_spec
                (String.substring (start + count) (String.length sub) s) sub)
      as [Heq|Hne].
    + right. exists count. split_and!; [lia|done|done|]. intros k' Hk'. lia.
    + destruct IH as [[Hnone Hall]|(k & Hk & Hfound & Heq & Hlater)].
      * left. split; [done|]. intros k Hk.
        destruct (decide (k = count)) as [->|]; [done|]. apply Hall. lia.
      * right. exists k. split_and!; [lia|done|done|]. intros k' Hk'.
        destruct (decide (k' = count)) as [->|]; [done|]. apply Hlater. lia.
Qed.

Lemma adjust_bounds (len : Z) (start end_ : option Z) :
  0 ≤ len →
  0 ≤ adjust_start len start ∧ 0 ≤ adjust_end len end_ ≤ len.
Proof.
  intros Hlen. unfold adjust_start, adjust_end.
  repeat case_match; lia.
Qed.

(** What [rfind] finds when it looks for a colon: the last colon of the
    adjusted window, or [-1] when the window has none. *)
Lemma rfind_colon (s : string) (start end_ : option Z) :
  let first := adjust_start (Z.of_nat (String.length s)) start in
  let beyond := adjust_end (Z.of_nat (String.length s)) end_ in
  (rfind s ":" start end_ = -1
   ∧ ∀ j, first ≤ j < beyond → String.get (Z.to_nat j) s ≠ String.get 0 ":")
  ∨ (first ≤ rfind s ":" start end_ < beyond
     ∧ String.get (Z.to_nat (rfind s ":" start end_)) s = String.get 0 ":"
     ∧ ∀ j, rfind s ":" start end_ < j < beyond →
            String.get (Z.to_nat j) s ≠ String.get 0 ":").
Proof.
  intros first beyond.
  destruct (adjust_bounds (Z.of_nat (String.length s)) start end_)
    as [Hfirst Hbeyond]; [lia|].
  fold first in Hfirst. fold beyond in Hbeyond.
  unfold rfind. fold first. fold beyond. simpl String.length.
  destruct (Z.ltb_spec (beyond - first) (Z.of_nat 1)) as [Hempty|Hwindow].
  - left. split; [done|]. intros j Hj. lia.
  - destruct (rfind_from_spec s ":" (Z.to_nat first)
                (Z.to_nat (beyond - first - Z.of_nat 1 + 1)))
      as [[-> Hall]|(k & Hk & -> & Heq & Hlater)].
    + left. split; [done|]. intros j Hj Hget.
      apply (Hall (Z.to_nat (j - first))); [lia|].
      apply substring_one.
      by replace (Z.to_nat first + Z.to_nat (j - first))%nat
        with (Z.to_nat j) by lia.
    + right. split_and!; [lia|lia| |].
      * rewrite Nat2Z.id. by apply substring_one.
      * intros j Hj Hget.
        apply (Hlater (Z.to_nat (j - first))); [lia|].
        apply substring_one.
        by replace (Z.to_nat first + Z.to_nat (j - first))%nat
          with (Z.to_nat j) by lia.
Qed.




(** X25. For a definition whose body starts on a later line, and with
    the docstring inside the body (Python 3.8 and later), [colon_seeker]
    fails exactly when the line before the first statement of the body is
    not among [lines], and otherwise reports that line, whatever it holds,
    and the last colon anywhere on it, or [-1] when it has none. *)
Theorem colon_seeker_multi_line (node : ast.FunctionDef) (body0 : Z * Z)
    (lines : list string) :
  ast.lineno node ≠ body0.1 →
  (colon.colon_seeker true node body0 lines = None
   ↔ py_getitem lines (body0.1 - 1 - 1) = None)
  ∧ ∀ def_end,
      colon.colon_seeker true node body0 lines = Some def_end →
      def_end.1 = body0.1 - 1
      ∧ ∃ line,
          py_getitem lines (body0.1 - 1 - 1) = Some line
          ∧ ((def_end.2 = -1
              ∧ ∀ j, 0 ≤ j < Z.of_nat (String.length line) →
                     String.get (Z.to_nat j) line ≠ String.get 0 ":")
             ∨ (0 ≤ def_end.2 < Z.of_nat (String.length line)
                ∧ String.get (Z.to_nat def_end.2) line = String.get 0 ":"
                ∧ ∀ j, def_end.2 < j < Z.of_nat (String.length line) →
                       String.get (Z.to_nat j) line ≠ String.get 0 ":")).
Proof.
  intros Hlater. unfold colon.colon_seeker.
  rewrite bool_decide_eq_false_2 by done. simpl.
  destruct (py_getitem lines (body0.1 - 1 - 1)) as [line|]; simpl.
  - split; [done|]. intros def_end [= <-]. split; [done|].
    exists line. split; [done|]. simpl.
    pose proof (rfind_colon line None None) as Hfind. simpl in Hfind.
    unfold adjust_start, adjust_end in Hfind. simpl in Hfind.
    rewrite Z.ltb_irrefl in Hfind.
    destruct (Z.ltb_spec (Z.of_nat (String.length line)) 0); [lia|].
    exact Hfind.
  - split; [done|]. intros def_end [=].
Qed.

(** A witness of [colon_seeker_multi_line]: a signature on two lines
    with an annotation on the second. *)
Lemma colon_seeker_multi_line_witness :
  colon.colon_seeker true
    (ast.mk_FunctionDef "f" 1 0 [] (samples.positional []) None None)
    (3, 4) ["def f(a,"; "      b: int):"; "    pass"]
  = Some (2, 13).
Proof.
  destruct (colon.colon_seeker true
              (ast.mk_FunctionDef "f" 1 0 [] (samples.positional []) None None)
              (3, 4) ["def f(a,"; "      b: int):"; "    pass"])
    as [def_end|] eqn:Hseek.
  - assert (Hlater :
              ast.lineno
                (ast.mk_FunctionDef "f" 1 0 [] (samples.positional []) None None)
              ≠ (3, 4).1) by done.
    destruct (proj2 (colon_seeker_multi_line
                (ast.mk_FunctionDef "f" 1 0 [] (samples.positional []) None None)
                (3, 4) ["def f(a,"; "      b: int):"; "    pass"] Hlater)
                def_end Hseek) as [_ _].
    vm_compute in Hseek. by rewrite <- Hseek.
  - by vm_compute in Hseek.
Defined.


Lemma rewind_docstring_spec (lines : list string) (fuel : nat) (d d' : Z) :
  colon.rewind_docstring fuel lines d = Some d' →
  d' < d
  ∧ (∃ line, py_getitem lines (d' - 1) = Some line
             ∧ contains triple_quote line = true)
  ∧ ∀ j, d' < j < d →
         ∃ line, py_getitem lines (j - 1) = Some line
                 ∧ contains triple_quote line = false.
Proof.
  revert d. induction fuel as [|fuel IH]; intros d; simpl; [done|].
  destruct (py_getitem lines (d - 1 - 1)) as [line|] eqn:Hline; simpl; [|done].
  destruct (contains triple_quote line) eqn:Hquote.
  - intros [= <-]. split_and!; [lia|by exists line|]. intros j Hj. lia.
  - intros (Hlt & Hfound & Hbetween)%IH. split_and!; [lia|done|].
    intros j Hj. destruct (decide (j = d - 1)) as [->|]; [by exists line|].
    apply Hbetween. lia.
Qed.



(** X27. Before Python 3.8, for a definition whose body starts on a
    later line: when the line of the first statement of the body does not
    hold exactly one triple quote, [colon_seeker] answers as it does from
    3.8 on; when it does, the line reported is the one above the nearest
    earlier line that holds a triple quote. *)
Theorem colon_seeker_before_38 (node : ast.FunctionDef) (body0 : Z * Z)
    (lines : list string) (line : string) :
  ast.lineno node ≠ body0.1 →
  py_getitem lines (body0.1 - 1) = Some line →
  (count line triple_quote ≠ 1%nat →
   colon.colon_seeker false node body0 lines
   = colon.colon_seeker true node body0 lines)
  ∧ (count line triple_quote = 1%nat →
     ∀ def_end,
       colon.colon_seeker false node body0 lines = Some def_end →
       ∃ opening opening_line,
         def_end.1 = opening - 1
         ∧ opening < body0.1
         ∧ py_getitem lines (opening - 1) = Some opening_line
         ∧ contains triple_quote opening_line = true
         ∧ ∀ j, opening < j < body0.1 →
                ∃ line', py_getitem lines (j - 1) = Some line'
                         ∧ contains triple_quote line' = false).
Proof.
  intros Hlater Hline. unfold colon.colon_seeker.
  rewrite !bool_decide_eq_false_2 by done.
  cbn -[colon.rewind_docstring colon.rewind_fuel]. rewrite Hline.
  cbn -[colon.rewind_docstring colon.rewind_fuel].
  split.
  - intros Hcount. by rewrite bool_decide_eq_false_2.
  - intros Hcount def_end. rewrite bool_decide_eq_true_2 by done.
    destruct (colon.rewind_docstring (colon.rewind_fuel lines body0.1) lines
                body0.1) as [opening|] eqn:Hrewind;
      cbn -[colon.rewind_docstring colon.rewind_fuel]; [|done].
    destruct (py_getitem lines (opening - 1 - 1));
      cbn -[colon.rewind_docstring colon.rewind_fuel]; [|done].
    intros [= <-].
    apply rewind_docstring_spec in Hrewind
      as (Hlt & (opening_line & Hopening & Hquote) & Hbetween).
    by exists opening, opening_line.
Qed.

(** A witness of [colon_seeker_before_38]: the docstring of three lines
    again, with the body given by the line that closes it. *)
Lemma colon_seeker_before_38_witness :
  colon.colon_seeker false
    (ast.mk_FunctionDef "f" 1 0 [] (samples.positional []) None None)
    (4, 4)
    ["def f(a):"; "    " +:+ triple_quote +:+ "Doc"; "    more";
     "    end" +:+ triple_quote; "    pass"]
  = Some (1, 8)
  ∧ ∃ opening, (1, 8).1 = opening - 1 ∧ opening < (4, 4).1.
Proof.
  assert (Hseek :
    colon.colon_seeker false
      (ast.mk_FunctionDef "f" 1 0 [] (samples.positional []) None None)
      (4, 4)
      ["def f(a):"; "    " +:+ triple_quote +:+ "Doc"; "    more";
       "    end" +:+ triple_quote; "    pass"]
    = Some (1, 8)) by (vm_compute; reflexivity).
  assert (Hlater :
    ast.lineno (ast.mk_FunctionDef "f" 1 0 [] (samples.positional []) None None)
    ≠ (4, 4).1) by done.
  assert (Hline :
    py_getitem
      ["def f(a):"; "    " +:+ triple_quote +:+ "Doc"; "    more";
       "    end" +:+ triple_quote; "    pass"] ((4, 4).1 - 1)
    = Some ("    end" +:+ triple_quote)) by (vm_compute; reflexivity).
  assert (Hcount : count ("    end" +:+ triple_quote) triple_quote = 1%nat)
    by (vm_compute; reflexivity).
  split; [done|].
  destruct (proj2 (colon_seeker_before_38 _ _ _ _ Hlater Hline) Hcount
              (1, 8) Hseek)
    as (opening & _ & Hfirst & Hbefore & _).
  by exists opening.
Defined.
